(** * MNIST logistic regression notebook: the training loop and its helpers

    A shallow embedding of [mnist-logistic-regression-classifier.ipynb]:
    [load_data], the [LogisticRegression] class, [msgd_optimization_mnist]
    and [predict].

    Conventions.
    - Python integers are [Z]; [//] and [%] are [Z.div] and [Z.modulo]
      (both round towards minus infinity, as Python does), with the
      [ZeroDivisionError] of a zero divisor written out.
    - The scalars the training loop handles ([validation_loss],
      [best_validation_loss], [test_score]) are binary64 floats, as numpy's
      are: [float] with [PrimFloat]'s operations.
    - The compiled Theano functions, [numpy.mean], [pickle] and the file
      system are parameters of the sections that use them.
    - The symbolic graph of [LogisticRegression] is read as the real-valued
      function it denotes ([R], [exp], [ln]). *)

From Stdlib Require Import ZArith List Bool Lia Floats Reals Lra.
From Stdlib Require String Ascii.
Import ListNotations.

#[local] Set Warnings "-inexact-float".
#[local] Open Scope Z_scope.

(** ** Python built-ins used by the notebook *)

Module Py.

(** [range(n)]: [0, 1, ..., n-1], empty when [n <= 0]. *)
Definition range (n : Z) : list Z := map Z.of_nat (seq 0 (Z.to_nat n)).

(** What a call either returns or raises. *)
Inductive outcome (E A : Type) : Type :=
| Return (a : A)
| Raise (e : E).
Arguments Return {E A} a.
Arguments Raise {E A} e.

(** [a // b] on integers. *)
Inductive arith_error : Type := ZeroDivisionError.

Definition floordiv (a b : Z) : outcome arith_error Z :=
  if b =? 0 then Raise ZeroDivisionError else Return (a / b).

(** Normalisation of one bound of a slice over a sequence of length [n]:
    a negative bound counts from the end, and the result is clamped to
    [0..n]. *)
Definition slice_bound (n k : Z) : Z :=
  if k <? 0 then Z.max (k + n) 0 else Z.min k n.

(** [l[i:j]]. *)
Definition slice {A : Type} (l : list A) (i j : Z) : list A :=
  let n := Z.of_nat (length l) in
  let lo := slice_bound n i in
  let hi := slice_bound n j in
  firstn (Z.to_nat (hi - lo)) (skipn (Z.to_nat lo) l).

End Py.

(** ** The training loop of [msgd_optimization_mnist]

    Lines 207 to 332: the batch counts, the loop, and what the loop prints,
    tests and saves. The lines that announce the phases and the closing
    summary, which reads the clock, are left out. *)

Module Trainer.
Import Py.

(** What the loop does to the outside world, in order. *)
Inductive event (params : Type) : Type :=
| EvTrain (index : Z)            (* train_model(minibatch_index) *)
| EvValidate (index : Z)         (* validate_model(i) *)
| EvTest (index : Z)             (* test_model(i) *)
| EvPrintValidation (epoch minibatch n_batches : Z) (percent : float)
                                 (* 'epoch %i, minibatch %i/%i, validation error %f %%' *)
| EvPrintTest (epoch minibatch n_batches : Z) (percent : float)
                                 (* ' * epoch %i, minibatch %i/%i, test error of best model %f %%' *)
| EvDump (classifier : params).  (* pickle.dump(classifier, open(SAVED_MODEL, 'wb')) *)
Arguments EvTrain {params} index.
Arguments EvValidate {params} index.
Arguments EvTest {params} index.
Arguments EvPrintValidation {params} epoch minibatch n_batches percent.
Arguments EvPrintTest {params} epoch minibatch n_batches percent.
Arguments EvDump {params} classifier.

(** The variables the loop mutates. *)
Record vars (params : Type) : Type := mkVars {
  classifier : params;           (* the shared W and b *)
  patience : Z;
  best_validation_loss : float;
  test_score : float;
  done_looping : bool
}.
Arguments mkVars {params}.
Arguments classifier {params}.
Arguments patience {params}.
Arguments best_validation_loss {params}.
Arguments test_score {params}.
Arguments done_looping {params}.

(** One executed pass through the body of the [for] loop. *)
Record step (params : Type) : Type := mkStep {
  st_epoch : Z;
  st_minibatch : Z;
  st_before : vars params;
  st_after : vars params;
  st_events : list (event params);
  st_break : bool
}.
Arguments mkStep {params}.
Arguments st_epoch {params}.
Arguments st_minibatch {params}.
Arguments st_before {params}.
Arguments st_after {params}.
Arguments st_events {params}.
Arguments st_break {params}.

(** What the function leaves behind. *)
Record run (params : Type) : Type := mkRun {
  r_epoch : Z;
  r_vars : vars params;
  r_history : list (step params)
}.
Arguments mkRun {params}.
Arguments r_epoch {params}.
Arguments r_vars {params}.
Arguments r_history {params}.

Section Loop.

(** A row of an input matrix, a label, the classifier's parameters. *)
Variables row label params : Type.

Definition dataset : Type := (list row * list label)%type.

(** The Theano function with [outputs=cost, updates=updates], applied to
    the batch its [givens] select: the cost and the updated parameters. *)
Variable train_fn : params -> dataset -> float * params.
(** The Theano function with [outputs=classifier.errors(y)]. *)
Variable errors_fn : params -> dataset -> float.
(** [numpy.mean] of a list of floats. *)
Variable np_mean : list float -> float.

Variables train_set validate_set test_set : dataset.
Variables n_epochs batch_size : Z.
(** [LogisticRegression(x=x, n_in=28*28, n_out=10)] *)
Variable classifier0 : params.

(** [train_set_x.get_value(borrow=True).shape[0]] *)
Definition shape0 (d : dataset) : Z := Z.of_nat (length (fst d)).

(** Lines 207-209: the number of batches of a split. *)
Definition n_batches (d : dataset) : outcome arith_error Z :=
  floordiv (shape0 d) batch_size.

(** [givens]: the batch that [index] selects. *)
Definition givens (d : dataset) (index : Z) : dataset :=
  (slice (fst d) (index * batch_size) ((index + 1) * batch_size),
   slice (snd d) (index * batch_size) ((index + 1) * batch_size)).

(** The rows of the split [d] that batch [index] feeds to the model all
    have a row number below [bound]. *)
Definition batch_below (d : dataset) (bound index : Z) : Prop :=
  forall j x,
    nth_error (fst (givens d index)) j = Some x ->
    index * batch_size + Z.of_nat j < bound
    /\ nth_error (fst d) (Z.to_nat (index * batch_size + Z.of_nat j)) = Some x.

Definition train_model (c : params) (index : Z) : float * params :=
  train_fn c (givens train_set index).
Definition validate_model (c : params) (index : Z) : float :=
  errors_fn c (givens validate_set index).
Definition test_model (c : params) (index : Z) : float :=
  errors_fn c (givens test_set index).

Definition initial_patience : Z := 5000.
Definition patience_mult : Z := 2.
Definition improvement_thresh : float := 0.995%float.

Section Batched.

Variables n_train_batches n_validate_batches n_test_batches : Z.

Definition validation_freq : Z :=
  Z.min n_train_batches (initial_patience / 2).

Definition iter_no (epoch minibatch_index : Z) : Z :=
  (epoch - 1) * n_train_batches + minibatch_index.

(** Line 290. The body runs for a batch index of [range(n_train_batches)]
    only, where [validation_freq] is positive ([validation_freq_pos] below):
    the [ZeroDivisionError] of [%] cannot occur. *)
Definition is_checkpoint (epoch minibatch_index : Z) : bool :=
  (iter_no epoch minibatch_index + 1) mod validation_freq =? 0.

(** [numpy.mean([validate_model(i) for i in range(n_validate_batches)])] *)
Definition validation_loss_of (c : params) : float :=
  np_mean (map (validate_model c) (range n_validate_batches)).

Definition test_score_of (c : params) : float :=
  (1 - np_mean (map (test_model c) (range n_test_batches)))%float.

(** Lines 305-327, the branch taken when the validation loss improved. *)
Definition improved (epoch minibatch_index : Z) (validation_loss : float)
    (v : vars params) : vars params * list (event params) :=
  let patience' :=
    if (validation_loss <? improvement_thresh * best_validation_loss v)%float
    then Z.max (patience v) (iter_no epoch minibatch_index * patience_mult)
    else patience v in
  let test_score' := test_score_of (classifier v) in
  (mkVars (classifier v) patience' validation_loss test_score' (done_looping v),
   map EvTest (range n_test_batches)
     ++ [EvPrintTest epoch (minibatch_index + 1) n_train_batches
           (test_score' * 100)%float;
         EvDump (classifier v)]).

(** Lines 290-327, the validation block. *)
Definition checkpoint (epoch minibatch_index : Z) (v : vars params)
    : vars params * list (event params) :=
  let validation_loss := validation_loss_of (classifier v) in
  let report :=
    map EvValidate (range n_validate_batches)
      ++ [EvPrintValidation epoch (minibatch_index + 1) n_train_batches
            (validation_loss * 100)%float] in
  if (validation_loss <? best_validation_loss v)%float then
    let '(v', evs) := improved epoch minibatch_index validation_loss v in
    (v', report ++ evs)
  else (v, report).

(** Lines 286-327: the training step and, when due, the validation. *)
Definition train_and_validate (epoch minibatch_index : Z) (v : vars params)
    : vars params * list (event params) :=
  let '(_, c) := train_model (classifier v) minibatch_index in
  let v1 := mkVars c (patience v) (best_validation_loss v) (test_score v)
              (done_looping v) in
  if is_checkpoint epoch minibatch_index then
    let '(v2, evs) := checkpoint epoch minibatch_index v1 in
    (v2, EvTrain minibatch_index :: evs)
  else (v1, [EvTrain minibatch_index]).

(** Lines 330-332: [if iter_no >= patience: done_looping = True; break]. *)
Definition early_exit (epoch minibatch_index : Z) (v : vars params) : bool :=
  iter_no epoch minibatch_index >=? patience v.

Definition set_done_looping (v : vars params) : vars params :=
  mkVars (classifier v) (patience v) (best_validation_loss v)
    (test_score v) true.

(** The body of the [for] loop. *)
Definition body (epoch minibatch_index : Z) (v : vars params) : step params :=
  let '(v1, evs) := train_and_validate epoch minibatch_index v in
  if early_exit epoch minibatch_index v1
  then mkStep epoch minibatch_index v (set_done_looping v1) evs true
  else mkStep epoch minibatch_index v v1 evs false.

(** [for minibatch_index in indices:], with its [break]. *)
Fixpoint for_loop (epoch : Z) (indices : list Z) (v : vars params)
    : vars params * list (step params) :=
  match indices with
  | [] => (v, [])
  | minibatch_index :: rest =>
      let s := body epoch minibatch_index v in
      if st_break s then (st_after s, [s])
      else let '(v', h) := for_loop epoch rest (st_after s) in (v', s :: h)
  end.

(** [while (epoch < n_epochs) and (not done_looping):]. The loop is
    unrolled [fuel] times; [None] means the unrolling was too short. *)
Fixpoint while_loop (fuel : nat) (epoch : Z) (v : vars params)
    : option (run params) :=
  if (epoch <? n_epochs) && negb (done_looping v) then
    match fuel with
    | O => None
    | S fuel' =>
        let epoch := epoch + 1 in
        let '(v', h) := for_loop epoch (range n_train_batches) v in
        match while_loop fuel' epoch v' with
        | Some r => Some (mkRun (r_epoch r) (r_vars r) (h ++ r_history r))
        | None => None
        end
    end
  else Some (mkRun epoch v []).

Definition initial_vars : vars params :=
  mkVars classifier0 initial_patience infinity 0%float false.

Definition training (fuel : nat) : option (run params) :=
  while_loop fuel 0 initial_vars.

(** The batch index an event passes to the compiled function it calls lies
    in the [range] of that split's batch count. *)
Definition index_in_range (e : event params) : Prop :=
  match e with
  | EvTrain i => In i (range n_train_batches)
  | EvValidate i => In i (range n_validate_batches)
  | EvTest i => In i (range n_test_batches)
  | _ => True
  end.

(** The step a run takes at global iteration [k]: the loop body, run at a
    batch index of [range(n_train_batches)] in one of the [n_epochs] epochs. *)
Definition step_ok (k : Z) (s : step params) : Prop :=
  iter_no (st_epoch s) (st_minibatch s) = k /\
  0 <= st_minibatch s < n_train_batches /\
  1 <= st_epoch s <= n_epochs /\
  s = body (st_epoch s) (st_minibatch s) (st_before s).

(** The steps of a run from global iteration [k] on: each starts from the
    variables its predecessor left, one iteration later, and nothing follows
    a [break]. *)
Inductive steps_from
    : Z -> vars params -> list (step params) -> vars params -> Prop :=
| steps_nil : forall k v, steps_from k v [] v
| steps_cons : forall k s h v',
    step_ok k s ->
    (st_break s = true -> h = []) ->
    steps_from (k + 1) (st_after s) h v' ->
    steps_from k (st_before s) (s :: h) v'.

End Batched.

(** From line 207 on, with the data sets already loaded. *)
Definition train (fuel : nat) : outcome arith_error (option (run params)) :=
  match n_batches train_set with
  | Raise e => Raise e
  | Return n_train_batches =>
      match n_batches validate_set with
      | Raise e => Raise e
      | Return n_validate_batches =>
          match n_batches test_set with
          | Raise e => Raise e
          | Return n_test_batches =>
              Return (training n_train_batches n_validate_batches
                        n_test_batches fuel)
          end
      end
  end.

(** Everything written to the outside world, in order. *)
Definition log (r : run params) : list (event params) :=
  concat (map st_events (r_history r)).

(** The contents of [SAVED_MODEL] after a sequence of events: opening with
    ['wb'] truncates, so the last dump is what the file holds. *)
Fixpoint saved_model (file : option params) (evs : list (event params))
    : option params :=
  match evs with
  | [] => file
  | EvDump c :: evs' => saved_model (Some c) evs'
  | _ :: evs' => saved_model file evs'
  end.

(** The number of calls of [train_model], that is of gradient steps, in a
    sequence of events. *)
Fixpoint n_train_calls (evs : list (event params)) : nat :=
  match evs with
  | [] => 0
  | EvTrain _ :: evs' => S (n_train_calls evs')
  | _ :: evs' => n_train_calls evs'
  end.

End Loop.

End Trainer.

(** ** A small data set to run the loop on

    Rows and labels are integers, the classifier is the number of gradient
    steps taken so far, and the error of a batch depends on that number
    alone: 25 % up to the third step, 24.95 % up to the sixth, 12.5 % from
    then on. *)

Module Scenario.
Import Trainer.

Definition train_fn (c : nat) (d : dataset Z Z) : float * nat :=
  (0%float, S c).

Definition errors_fn (c : nat) (d : dataset Z Z) : float :=
  if (c <=? 3)%nat then 0.25%float
  else if (c <=? 6)%nat then 0.2495%float
  else 0.125%float.

(** The mean, summed from left to right. *)
Definition np_mean (l : list float) : float :=
  (fold_left PrimFloat.add l 0 / of_uint63 (Uint63.of_Z (Z.of_nat (length l))))%float.

Definition data (n : nat) : dataset Z Z :=
  (map Z.of_nat (seq 0 n), map (fun i => Z.of_nat i mod 10) (seq 0 n)).

(** Seven training rows in batches of two (three batches, one row left
    over), four validation rows, five test rows. *)
Definition train_set : dataset Z Z := data 7.
Definition validate_set : dataset Z Z := data 4.
Definition test_set : dataset Z Z := data 5.

Abbreviation training n_epochs fuel :=
  (Trainer.training Z Z nat train_fn errors_fn np_mean train_set validate_set
     test_set n_epochs 2 O 3 2 2 fuel).

(** The history of three epochs. *)
Definition history3 : list (step nat) :=
  match training 3 3 with
  | Some r => r_history r
  | None => []
  end.

(** The last step of epoch [e] of that history (a checkpoint). *)
Definition checkpoint_of_epoch (e : nat) : step nat :=
  nth (3 * e - 1) history3
    (mkStep 0 0 (initial_vars nat O) (initial_vars nat O) [] false).

Definition run3 : run nat :=
  match training 3 3 with
  | Some r => r
  | None => mkRun 0 (initial_vars nat O) []
  end.

(** One batch per epoch and an error that never improves after the first
    checkpoint: the run that exhausts the initial patience. *)
Definition flat_errors_fn (c : nat) (d : dataset Z Z) : float := 0.25%float.

Abbreviation patient_training n_epochs fuel :=
  (Trainer.training Z Z nat train_fn flat_errors_fn np_mean (data 2) (data 2)
     (data 2) n_epochs 2 O 1 1 1 fuel).

Definition patient_run : run nat :=
  match patient_training 6000 (Z.to_nat 6000) with
  | Some r => r
  | None => mkRun 0 (initial_vars nat O) []
  end.

(** One batch per epoch and an error that shrinks by one per cent at every
    gradient step (the classifier is that error): every checkpoint improves
    by more than the margin, and patience grows. *)
Definition decay_train_fn (c : float) (d : dataset Z Z) : float * float :=
  (0%float, (c * 0.99)%float).

Definition decay_errors_fn (c : float) (d : dataset Z Z) : float := c.

Abbreviation decay_training n_epochs fuel :=
  (Trainer.training Z Z float decay_train_fn decay_errors_fn np_mean (data 2)
     (data 2) (data 2) n_epochs 2 1%float 1 1 1 fuel).

Definition decay_run : run float :=
  match decay_training 2600 (Z.to_nat 2600) with
  | Some r => r
  | None => mkRun 0 (initial_vars float 1%float) []
  end.

(** The step with the global iteration index [k] of that run. *)
Definition decay_step (k : nat) : step float :=
  nth k (r_history decay_run)
    (mkStep 0 0 (initial_vars float 1%float) (initial_vars float 1%float)
       [] false).

End Scenario.

(** ** [load_data] *)

Module Loader.
Import Py Ascii String.

#[local] Open Scope string_scope.

(** [posixpath.split], the [os.path.split] of a POSIX system: the path is
    cut after its last slash, and the head loses its trailing slashes unless
    it consists of slashes only. *)
Fixpoint cut_after_last_slash (p : String.string)
    : option (String.string * String.string) :=
  match p with
  | String.EmptyString => None
  | String.String c rest =>
      match cut_after_last_slash rest with
      | Some (head, tail) => Some (String.String c head, tail)
      | None =>
          if Ascii.eqb c "/"%char
          then Some (String.String c String.EmptyString, rest)
          else None
      end
  end.

Fixpoint all_slashes (s : String.string) : bool :=
  match s with
  | String.EmptyString => true
  | String.String c rest => Ascii.eqb c "/"%char && all_slashes rest
  end.

Fixpoint rstrip_slashes (s : String.string) : String.string :=
  match s with
  | String.EmptyString => String.EmptyString
  | String.String c rest =>
      match rstrip_slashes rest with
      | String.EmptyString =>
          if Ascii.eqb c "/"%char then String.EmptyString
          else String.String c String.EmptyString
      | rest' => String.String c rest'
      end
  end.

Definition posix_split (p : String.string) : String.string * String.string :=
  match cut_after_last_slash p with
  | None => (EmptyString, p)
  | Some (head, tail) =>
      (if all_slashes head then head else rstrip_slashes head, tail)
  end.

(** What the function prints and opens, in order. *)
Inductive io_event : Type :=
| Print (line : String.string)
| Open (path : String.string).     (* gzip.open(dataset, 'rb') *)

(** The exceptions [load_data] ends with: the one it raises itself, and
    whatever the libraries it calls raise. *)
Inductive exn (lib_error : Type) : Type :=
| ValueError (msg : String.string) (arg : String.string * String.string)
| LibraryError (e : lib_error).
Arguments ValueError {lib_error} msg arg.
Arguments LibraryError {lib_error} e.

Section LoadData.

(** The exceptions of [gzip] and [pickle], and the objects a data set file
    holds: an input matrix and a label vector per split. *)
Variables lib_error data_x data_y : Type.
Variables row label : Type.

(** [os.path.split], [os.path.isfile], and [gzip.open] followed by
    [pickle.load] and the unpacking into three splits. *)
Variable os_path_split : String.string -> String.string * String.string.
Variable os_path_isfile : String.string -> bool.
Variable gzip_pickle_load :
  String.string ->
  outcome lib_error ((data_x * data_y) * (data_x * data_y) * (data_x * data_y)).

(** [theano.shared(numpy.asarray(data_x, dtype=floatX))] and the same for
    the labels, followed by [T.cast(shared_y, 'int32')]. *)
Variable shared_x : data_x -> list row.
Variable shared_y : data_y -> list label.

Definition shared_dataset (data_xy : data_x * data_y) : list row * list label :=
  let '(x, y) := data_xy in (shared_x x, shared_y y).

Definition load_data (dataset : String.string)
    : list io_event
      * outcome (exn lib_error)
          ((list row * list label) * (list row * list label)
           * (list row * list label)) :=
  let '(data_dir, data_file) := os_path_split dataset in
  if String.eqb data_dir EmptyString && negb (os_path_isfile dataset) then
    ([], Raise (ValueError "Incorrect dataset path" ("dataset", dataset)))
  else
    let evs := [Print "... loading data"; Open dataset] in
    match gzip_pickle_load dataset with
    | Raise e => (evs, Raise (LibraryError e))
    | Return (train_set, validate_set, test_set) =>
        (evs, Return (shared_dataset train_set, shared_dataset validate_set,
                      shared_dataset test_set))
    end.

End LoadData.

(** A file system with no file in it. *)
Inductive io_error : Type := FileNotFoundError.

Definition no_file (path : String.string) : bool := false.

Definition open_no_file (path : String.string)
    : outcome io_error
        ((list Z * list Z) * (list Z * list Z) * (list Z * list Z)) :=
  Raise FileNotFoundError.

Definition load_data_no_file (dataset : String.string) :=
  load_data io_error (list Z) (list Z) Z Z posix_split no_file open_no_file
    (fun x => x) (fun y => y) dataset.

End Loader.

(** ** The tensor operations of the model

    [theano.tensor as T], on real matrices given as lists of rows. An
    operation is modelled on operands of the shapes it accepts. *)

Module T.

#[local] Open Scope R_scope.

Abbreviation vector := (list R).
Abbreviation matrix := (list (list R)).

(** An elementwise operation on two vectors of one length. *)
Definition map2 {A B C : Type} (f : A -> B -> C) (l1 : list A) (l2 : list B)
    : list C :=
  map (fun p => f (fst p) (snd p)) (combine l1 l2).

Definition sum (v : vector) : R := fold_right Rplus 0 v.

(** [T.mean] of a vector. *)
Definition mean (v : vector) : R := sum v / INR (length v).

(** [m.shape[1]] *)
Definition shape1 (m : matrix) : nat := length (hd [] m).

Definition column (j : nat) (m : matrix) : vector :=
  map (fun r => nth j r 0) m.

(** [T.dot(x, w)] of two matrices. *)
Definition dot (x w : matrix) : matrix :=
  map (fun xr => map (fun j => sum (map2 Rmult xr (column j w)))
                   (seq 0 (shape1 w)))
      x.

(** [m + b] with the vector [b] broadcast over the rows of [m]. *)
Definition add_rows (m : matrix) (b : vector) : matrix :=
  map (fun r => map2 Rplus r b) m.

(** [T.nnet.softmax], row by row. *)
Definition softmax_row (z : vector) : vector :=
  let e := map exp z in map (fun v => v / sum e) e.

Definition softmax (m : matrix) : matrix := map softmax_row m.

(** [T.argmax(m, axis=1)]: per row the index of the first occurrence of the
    maximum. *)
Fixpoint argmax_from (best : R) (best_i i : nat) (v : vector) : nat :=
  match v with
  | [] => best_i
  | x :: v' =>
      if Rlt_dec best x then argmax_from x i (S i) v'
      else argmax_from best best_i (S i) v'
  end.

Definition argmax_row (v : vector) : nat :=
  match v with
  | [] => 0%nat
  | x :: v' => argmax_from x 0 1 v'
  end.

Definition argmax (m : matrix) : list nat := map argmax_row m.

(** [T.log], elementwise. *)
Definition log (m : matrix) : matrix := map (map ln) m.

(** [T.arange(n)] *)
Definition arange (n : nat) : list nat := seq 0 n.

(** [m[i, k]]: a negative column index counts from the end of the row. *)
Definition item (m : matrix) (i : nat) (k : Z) : R :=
  let r := nth i m [] in
  let k' := if (k <? 0)%Z then (k + Z.of_nat (length r))%Z else k in
  nth (Z.to_nat k') r 0.

(** [m[rows, cols]] with two index vectors of one length. *)
Definition items (m : matrix) (rows : list nat) (cols : list Z) : vector :=
  map2 (item m) rows cols.

(** [T.neq] on integer vectors: 1 where the entries differ, 0 elsewhere. *)
Definition neq (a b : list Z) : vector :=
  map2 (fun p q => if (p =? q)%Z then 0 else 1) a b.

End T.

(** ** The class [LogisticRegression] *)

Module LogReg.

#[local] Open Scope R_scope.

(** The two shared variables of an instance. The graph built on them by
    [__init__] is the same for every instance: the definitions below. *)
Record LogisticRegression : Type := mkLogisticRegression {
  W : T.matrix;
  b : T.vector
}.

(** [numpy.zeros((n_in, n_out))] and [numpy.zeros((n_out,))] *)
Definition init (n_in n_out : nat) : LogisticRegression :=
  mkLogisticRegression (repeat (repeat 0 n_out) n_in) (repeat 0 n_out).

Definition p_y_given_x (self : LogisticRegression) (x : T.matrix) : T.matrix :=
  T.softmax (T.add_rows (T.dot x (W self)) (b self)).

Definition y_pred (self : LogisticRegression) (x : T.matrix) : list nat :=
  T.argmax (p_y_given_x self x).

Definition negative_log_likelihood (self : LogisticRegression) (x : T.matrix)
    (y : list Z) : R :=
  - T.mean (T.items (T.log (p_y_given_x self x)) (T.arange (length y)) y).

Definition errors (self : LogisticRegression) (x : T.matrix) (y : list Z) : R :=
  T.mean (T.neq (map Z.of_nat (y_pred self x)) y).

(** The shapes of section 4.1: a batch of [batch] rows of [n_in] features,
    [n_in] by [n_out] weights, [n_out] biases, one label below [n_out] per
    row. *)
Record well_shaped (self : LogisticRegression) (x : T.matrix) (y : list Z)
    (batch n_in n_out : nat) : Prop := mkWellShaped {
  ws_n_in : (0 < n_in)%nat;
  ws_n_out : (0 < n_out)%nat;
  ws_x_rows : length x = batch;
  ws_x_cols : Forall (fun r => length r = n_in) x;
  ws_W_rows : length (W self) = n_in;
  ws_W_cols : Forall (fun r => length r = n_out) (W self);
  ws_b : length (b self) = n_out;
  ws_y : length y = batch;
  ws_labels : Forall (fun k => (0 <= k < Z.of_nat n_out)%Z) y
}.

End LogReg.

(** ** The model as section 4.1 of the specification words it *)

Module ModelSpec.

#[local] Open Scope R_scope.

(** The sum of [f 0], ..., [f (n - 1)]. *)
Definition big_sum (n : nat) (f : nat -> R) : R :=
  fold_right Rplus 0 (map f (seq 0 n)).

Definition entry (m : T.matrix) (i j : nat) : R := nth j (nth i m []) 0.

(** [logits = X W + b] *)
Definition logit (x w : T.matrix) (b : T.vector) (n_in : nat) (i j : nat) : R :=
  big_sum n_in (fun k => entry x i k * entry w k j) + nth j b 0.

(** [probs = softmax(logits)], row-wise. *)
Definition prob (x w : T.matrix) (b : T.vector) (n_in n_out : nat)
    (i j : nat) : R :=
  exp (logit x w b n_in i j)
  / big_sum n_out (fun j' => exp (logit x w b n_in i j')).

(** [p] is the arg-max of the row [v]: a position holding the largest
    entry, and the first one to do so. *)
Definition is_argmax (v : T.vector) (p : nat) : Prop :=
  (p < length v)%nat
  /\ (forall j, (j < length v)%nat -> nth j v 0 <= nth p v 0)
  /\ (forall j, (j < p)%nat -> nth j v 0 < nth p v 0).

(** The mean over rows of [-log(probs[row, true_label[row]])]. *)
Definition loss (probs : T.matrix) (y : list Z) (batch : nat) : R :=
  big_sum batch (fun i => - ln (entry probs i (Z.to_nat (nth i y 0%Z))))
  / INR batch.

(** The fraction of rows where prediction and true label differ. *)
Definition error_rate (prediction : list nat) (y : list Z) (batch : nat) : R :=
  INR (length (filter (fun i => negb (Z.of_nat (nth i prediction 0%nat)
                                       =? nth i y 0%Z)%Z)
                 (seq 0 batch)))
  / INR batch.

End ModelSpec.

(** ** [predict] and the saved model *)

Module Predictor.
Import Py.

Inductive exn : Type :=
| FileNotFoundError        (* open(saved_model, 'rb') *)
| UnpicklingError.         (* pickle.load(f) *)

Section Pickle.

(** What a file holds, and [pickle] on a classifier. *)
Variable contents : Type.
Variable pickle_dumps : LogReg.LogisticRegression -> contents.
Variable pickle_loads : contents -> option LogReg.LogisticRegression.

Definition file_system : Type := String.string -> option contents.

(** [with open(path, 'wb') as f: pickle.dump(classifier, f)] *)
Definition dump (fs : file_system) (path : String.string)
    (classifier : LogReg.LogisticRegression) : file_system :=
  fun p => if String.eqb p path then Some (pickle_dumps classifier) else fs p.

(** The file system after the dumps among the events of a training run. *)
Fixpoint persist (fs : file_system) (path : String.string)
    (evs : list (Trainer.event LogReg.LogisticRegression)) : file_system :=
  match evs with
  | [] => fs
  | Trainer.EvDump c :: evs' => persist (dump fs path c) path evs'
  | _ :: evs' => persist fs path evs'
  end.

(** [predict(saved_model, x)]: the file system it leaves and the
    predictions it returns. *)
Definition predict (fs : file_system) (saved_model : String.string)
    (x : T.matrix) : file_system * outcome exn (list nat) :=
  match fs saved_model with
  | None => (fs, Raise FileNotFoundError)
  | Some f =>
      match pickle_loads f with
      | None => (fs, Raise UnpicklingError)
      | Some classifier => (fs, Return (LogReg.y_pred classifier x))
      end
  end.

End Pickle.

End Predictor.

(** ** [msgd_optimization_mnist] from its first line *)

Module Notebook.
Import Py.

Inductive exn (lib_error : Type) : Type :=
| LoadError (e : Loader.exn lib_error)
| ArithmeticError (e : arith_error).
Arguments LoadError {lib_error} e.
Arguments ArithmeticError {lib_error} e.

Section Main.

Variables lib_error data_x data_y : Type.
Variable os_path_split : String.string -> String.string * String.string.
Variable os_path_isfile : String.string -> bool.
Variable gzip_pickle_load :
  String.string ->
  outcome lib_error ((data_x * data_y) * (data_x * data_y) * (data_x * data_y)).
Variable shared_x : data_x -> list (list R).
Variable shared_y : data_y -> list Z.

(** The compiled [train_model] for a learning rate, and the compiled
    [classifier.errors(y)]. *)
Variable train_fn :
  float -> LogReg.LogisticRegression -> Trainer.dataset (list R) Z ->
  float * LogReg.LogisticRegression.
Variable errors_fn :
  LogReg.LogisticRegression -> Trainer.dataset (list R) Z -> float.
Variable np_mean : list float -> float.

Definition msgd_optimization_mnist (learning_rate : float) (n_epochs : Z)
    (dataset : String.string) (batch_size : Z) (fuel : nat)
    : list Loader.io_event
      * outcome (exn lib_error)
          (option (Trainer.run LogReg.LogisticRegression)) :=
  match Loader.load_data lib_error data_x data_y (list R) Z os_path_split
          os_path_isfile gzip_pickle_load shared_x shared_y dataset with
  | (evs, Raise e) => (evs, Raise (LoadError e))
  | (evs, Return (train_set, validate_set, test_set)) =>
      (evs,
       match Trainer.train (list R) Z LogReg.LogisticRegression
               (train_fn learning_rate) errors_fn np_mean train_set
               validate_set test_set n_epochs batch_size
               (LogReg.init (28 * 28) 10) fuel with
       | Raise e => Raise (ArithmeticError e)
       | Return r => Return r
       end)
  end.

End Main.

End Notebook.

(** ** A two-class model to evaluate the class on *)

Module ModelScenario.

#[local] Open Scope R_scope.

(** Two features, two classes, identity weights, and one input row that the
    model assigns to class 1. *)
Definition classifier : LogReg.LogisticRegression :=
  LogReg.mkLogisticRegression [[1; 0]; [0; 1]] [0; 0].

Definition x : T.matrix := [[1; 2]].

Definition y : list Z := [1%Z].

(** A file holds the classifier itself. *)
Definition pickle_dumps (c : LogReg.LogisticRegression)
    : LogReg.LogisticRegression := c.

Definition pickle_loads (f : LogReg.LogisticRegression)
    : option LogReg.LogisticRegression := Some f.

Definition empty_fs : Predictor.file_system LogReg.LogisticRegression :=
  fun _ => None.

End ModelScenario.

(** ** The entry point that uses a trained model

    The cell that loads the data set, classifies the first [k = 10] rows of
    the test split with the saved model and prints the predictions and the
    labels of those rows. *)

Module Entrypoints.
Import Py String.

#[local] Open Scope string_scope.

Inductive exn (lib_error : Type) : Type :=
| LoadError (e : Loader.exn lib_error)
| PredictError (e : Predictor.exn).
Arguments LoadError {lib_error} e.
Arguments PredictError {lib_error} e.

(** What the cell prints after the line of [load_data]. *)
Inductive output : Type :=
| Line (text : string)
| Classes (prediction : list nat)
| Labels (labels : list Z).

Section Pretrained.

Variables lib_error data_x data_y contents : Type.
Variable os_path_split : string -> string * string.
Variable os_path_isfile : string -> bool.
Variable gzip_pickle_load :
  string ->
  outcome lib_error ((data_x * data_y) * (data_x * data_y) * (data_x * data_y)).
Variable shared_x : data_x -> list (list R).
Variable shared_y : data_y -> list Z.
Variable pickle_loads : contents -> option LogReg.LogisticRegression.

Definition k : Z := 10.

Definition pretrained_entrypoint (fs : Predictor.file_system contents)
    (dataset saved_model : string)
    : list Loader.io_event * list output * outcome (exn lib_error) unit :=
  match Loader.load_data lib_error data_x data_y (list R) Z os_path_split
          os_path_isfile gzip_pickle_load shared_x shared_y dataset with
  | (evs, Raise e) => (evs, [], Raise (LoadError e))
  | (evs, Return (_, _, (test_set_x, test_set_y))) =>
      match snd (Predictor.predict contents pickle_loads fs saved_model
                   (slice test_set_x 0 k)) with
      | Raise e => (evs, [], Raise (PredictError e))
      | Return prediction =>
          let labels := slice test_set_y 0 k in
          (evs,
           [Line "Prediction for first 10 samples:"; Classes prediction;
            Line "Labels for first 10 samples:"; Labels labels],
           Return tt)
      end
  end.

End Pretrained.

End Entrypoints.

(** ** A data set file and a saved model for the entry points *)

Module EntryScenario.
Import Py String.

#[local] Open Scope string_scope.

(** Every path is a file, and every file holds three times the one-row
    split of the two-class model. *)
Definition isfile (path : string) : bool := true.

Definition split_xy : list (list R) * list Z :=
  (ModelScenario.x, ModelScenario.y).

Definition gzip_pickle_load (path : string)
    : outcome Loader.io_error
        ((list (list R) * list Z) * (list (list R) * list Z)
         * (list (list R) * list Z)) :=
  Return (split_xy, split_xy, split_xy).

(** The two-class model, dumped. *)
Definition fs : Predictor.file_system LogReg.LogisticRegression :=
  Predictor.dump LogReg.LogisticRegression ModelScenario.pickle_dumps
    ModelScenario.empty_fs "my_best_model.pkl" ModelScenario.classifier.

(** Compiled functions that leave the classifier alone. *)
Definition train_fn (learning_rate : float) (c : LogReg.LogisticRegression)
    (d : Trainer.dataset (list R) Z) : float * LogReg.LogisticRegression :=
  (0%float, c).

Definition errors_fn (c : LogReg.LogisticRegression)
    (d : Trainer.dataset (list R) Z) : float := 0.5%float.

End EntryScenario.

(** ** A batch for the untrained model *)

Module ZeroScenario.

#[local] Open Scope R_scope.

(** Two blank images, labelled 3 and 0. *)
Definition x : T.matrix := [repeat 0 (28 * 28); repeat 0 (28 * 28)].

Definition y : list Z := [3%Z; 0%Z].

End ZeroScenario.

(** ** Proof automation *)

(** Case analysis along the branches of the loop body. *)
Ltac open_body :=
  unfold Trainer.body, Trainer.train_and_validate, Trainer.checkpoint,
    Trainer.improved, Trainer.set_done_looping;
  destruct (Trainer.train_model _ _ _ _ _ _ _ _) as [? ?];
  destruct (Trainer.is_checkpoint _ _ _) eqn:?;
  repeat match goal with
         | |- context [if PrimFloat.ltb ?a ?b then _ else _] =>
             destruct (PrimFloat.ltb a b) eqn:?
         end;
  repeat match goal with
         | |- context [if Trainer.early_exit ?p ?n ?e ?m ?v then _ else _] =>
             destruct (Trainer.early_exit p n e m v) eqn:?
         end;
  cbn [Trainer.st_epoch Trainer.st_minibatch Trainer.st_before
       Trainer.st_after Trainer.st_events Trainer.st_break
       Trainer.classifier Trainer.patience Trainer.best_validation_loss
       Trainer.test_score Trainer.done_looping fst snd] in *.

(** * Properties *)

(** ** The training loop *)

Section LoopFacts.

Import Trainer.

Variables row label params : Type.
Variable train_fn : params -> Trainer.dataset row label -> float * params.
Variable errors_fn : params -> Trainer.dataset row label -> float.
Variable np_mean : list float -> float.
Variables train_set validate_set test_set : Trainer.dataset row label.
Variables n_epochs batch_size : Z.
Variable classifier0 : params.
Variables n_train_batches n_validate_batches n_test_batches : Z.

#[local] Abbreviation iter_no := (Trainer.iter_no n_train_batches).
#[local] Abbreviation is_checkpoint := (Trainer.is_checkpoint n_train_batches).
#[local] Abbreviation validation_freq := (Trainer.validation_freq n_train_batches).
#[local] Abbreviation early_exit := (Trainer.early_exit params n_train_batches).
#[local] Abbreviation train_model :=
  (Trainer.train_model row label params train_fn train_set batch_size).
#[local] Abbreviation validation_loss_of :=
  (Trainer.validation_loss_of row label params errors_fn np_mean validate_set
     batch_size n_validate_batches).
#[local] Abbreviation test_score_of :=
  (Trainer.test_score_of row label params errors_fn np_mean test_set
     batch_size n_test_batches).
#[local] Abbreviation improved :=
  (Trainer.improved row label params errors_fn np_mean test_set batch_size
     n_train_batches n_test_batches).
#[local] Abbreviation checkpoint :=
  (Trainer.checkpoint row label params errors_fn np_mean validate_set test_set
     batch_size n_train_batches n_validate_batches n_test_batches).
#[local] Abbreviation train_and_validate :=
  (Trainer.train_and_validate row label params train_fn errors_fn np_mean
     train_set validate_set test_set batch_size n_train_batches
     n_validate_batches n_test_batches).
#[local] Abbreviation body :=
  (Trainer.body row label params train_fn errors_fn np_mean train_set
     validate_set test_set batch_size n_train_batches n_validate_batches
     n_test_batches).
#[local] Abbreviation for_loop :=
  (Trainer.for_loop row label params train_fn errors_fn np_mean train_set
     validate_set test_set batch_size n_train_batches n_validate_batches
     n_test_batches).
#[local] Abbreviation while_loop :=
  (Trainer.while_loop row label params train_fn errors_fn np_mean train_set
     validate_set test_set n_epochs batch_size n_train_batches
     n_validate_batches n_test_batches).
#[local] Abbreviation initial_vars := (Trainer.initial_vars params classifier0).
#[local] Abbreviation training :=
  (Trainer.training row label params train_fn errors_fn np_mean train_set
     validate_set test_set n_epochs batch_size classifier0 n_train_batches
     n_validate_batches n_test_batches).
#[local] Abbreviation index_in_range :=
  (Trainer.index_in_range params n_train_batches n_validate_batches
     n_test_batches).
#[local] Abbreviation step_ok :=
  (Trainer.step_ok row label params train_fn errors_fn np_mean train_set
     validate_set test_set n_epochs batch_size n_train_batches
     n_validate_batches n_test_batches).
#[local] Abbreviation steps_from :=
  (Trainer.steps_from row label params train_fn errors_fn np_mean train_set
     validate_set test_set n_epochs batch_size n_train_batches
     n_validate_batches n_test_batches).
#[local] Abbreviation givens := (Trainer.givens row label batch_size).

(** *** One pass through the loop body *)

Lemma body_epoch e m v : st_epoch (body e m v) = e.
Proof. open_body; reflexivity. Qed.

Lemma body_minibatch e m v : st_minibatch (body e m v) = m.
Proof. open_body; reflexivity. Qed.

Lemma body_before e m v : st_before (body e m v) = v.
Proof. open_body; reflexivity. Qed.

Lemma body_patience e m v : patience v <= patience (st_after (body e m v)).
Proof. open_body; lia. Qed.

Lemma body_classifier e m v :
  classifier (st_after (body e m v)) = snd (train_model (classifier v) m).
Proof. open_body; reflexivity. Qed.

Lemma body_break e m v :
  st_break (body e m v) = (iter_no e m >=? patience (st_after (body e m v))).
Proof.
  open_body; unfold Trainer.early_exit in *;
    cbn [patience] in *; congruence.
Qed.

Lemma body_done e m v :
  done_looping (st_after (body e m v))
  = if st_break (body e m v) then true else done_looping v.
Proof. open_body; reflexivity. Qed.

(** *** The shape of a history *)

Lemma iter_no_succ e (a : nat) :
  iter_no e (Z.of_nat (S a)) = iter_no e (Z.of_nat a) + 1.
Proof. unfold Trainer.iter_no. lia. Qed.

Lemma steps_from_app k v h v1 h' v2 :
  steps_from k v h v1 ->
  Forall (fun s => st_break s = false) h ->
  steps_from (k + Z.of_nat (length h)) v1 h' v2 ->
  steps_from k v (h ++ h') v2.
Proof.
  induction 1 as [k v | k s h v1 Hok Hbrk Hrest IH]; intros Hnb Hnext.
  - cbn in Hnext. now replace (k + 0) with k in Hnext by lia.
  - inversion Hnb as [| ? ? Hs Hh]; subst.
    cbn [app]. constructor; auto.
    + intros Hb. congruence.
    + apply IH; auto.
      cbn [length] in Hnext.
      now replace (k + 1 + Z.of_nat (length h))
        with (k + Z.of_nat (S (length h))) by lia.
Qed.

Lemma steps_from_split k v h1 h2 v' :
  steps_from k v (h1 ++ h2) v' ->
  exists vm, steps_from k v h1 vm
             /\ steps_from (k + Z.of_nat (length h1)) vm h2 v'.
Proof.
  revert k v. induction h1 as [| s h1 IH]; intros k v H.
  - exists v. split; [constructor |].
    cbn. now replace (k + 0) with k by lia.
  - cbn [app] in H. inversion H as [| ? ? ? ? Hok Hbrk Hrest]; subst.
    destruct (IH _ _ Hrest) as [vm [H1 H2]].
    exists vm. split.
    + constructor; auto.
      intros Hb. specialize (Hbrk Hb).
      now destruct h1.
    + cbn [length].
      now replace (k + Z.of_nat (S (length h1)))
        with (k + 1 + Z.of_nat (length h1)) by lia.
Qed.

Lemma steps_from_patience k v h v' :
  steps_from k v h v' -> patience v <= patience v'.
Proof.
  induction 1 as [k v | k s h v' Hok Hbrk Hrest IH]; [lia |].
  destruct Hok as (_ & _ & _ & Hs).
  pose proof (body_patience (st_epoch s) (st_minibatch s) (st_before s)) as Hp.
  rewrite <- Hs in Hp. lia.
Qed.

Lemma steps_from_In k v h v' s :
  steps_from k v h v' -> In s h -> exists k', step_ok k' s.
Proof.
  induction 1 as [k v | k s0 h v' Hok Hbrk Hrest IH]; intros Hin.
  - destruct Hin.
  - destruct Hin as [<- | Hin]; eauto.
Qed.

(** *** The two loops *)

Lemma for_loop_steps len : forall a epoch v,
  1 <= epoch <= n_epochs ->
  (a + len <= Z.to_nat n_train_batches)%nat ->
  let res := for_loop epoch (map Z.of_nat (seq a len)) v in
  steps_from (iter_no epoch (Z.of_nat a)) v (snd res) (fst res)
  /\ ((Forall (fun s => st_break s = false) (snd res)
       /\ length (snd res) = len
       /\ done_looping (fst res) = done_looping v)
      \/ done_looping (fst res) = true).
Proof.
  induction len as [| len IH]; intros a epoch v Hep Hlen; cbn zeta.
  - cbn. split; [constructor | left; auto].
  - cbn [seq map Trainer.for_loop].
    set (s := body epoch (Z.of_nat a) v).
    assert (Hok : step_ok (iter_no epoch (Z.of_nat a)) s).
    { unfold Trainer.step_ok, s.
      rewrite body_epoch, body_minibatch, body_before.
      repeat split; try lia. }
    assert (Hbef : st_before s = v) by apply body_before.
    pose proof (body_done epoch (Z.of_nat a) v) as Hdone. fold s in Hdone.
    destruct (st_break s) eqn:Hb.
    + cbn [fst snd]. split.
      * rewrite <- Hbef at 1. constructor; auto. constructor.
      * right. exact Hdone.
    + specialize (IH (S a) epoch (st_after s) Hep ltac:(lia)).
      cbv zeta in IH.
      destruct (for_loop epoch (map Z.of_nat (seq (S a) len)) (st_after s))
        as [v' h] eqn:Hfl.
      cbn [fst snd] in *. destruct IH as [Hsteps Hcases]. split.
      * rewrite <- Hbef at 1. constructor; auto; [congruence |].
        now rewrite <- iter_no_succ.
      * destruct Hcases as [(Hnb & Hl & Hd) | Hd]; [left | right; exact Hd].
        repeat split; [constructor; auto | cbn; lia | congruence].
Qed.

Lemma while_loop_steps fuel : forall epoch v r,
  0 <= n_train_batches -> 0 <= epoch ->
  while_loop fuel epoch v = Some r ->
  steps_from (epoch * n_train_batches) v (r_history r) (r_vars r).
Proof.
  induction fuel as [| fuel IH]; intros epoch v r Hn He Hrun;
    cbn [Trainer.while_loop] in Hrun;
    destruct ((epoch <? n_epochs) && negb (done_looping v)) eqn:Hc;
    try discriminate;
    try (injection Hrun as <-; cbn; constructor).
  apply andb_true_iff in Hc. destruct Hc as [Hlt Hnd].
  apply Z.ltb_lt in Hlt. apply negb_true_iff in Hnd.
  pose proof (for_loop_steps (Z.to_nat n_train_batches) 0 (epoch + 1) v
                ltac:(lia) ltac:(lia)) as Hfl.
  cbv zeta in Hfl. unfold Py.range in Hrun.
  destruct (for_loop (epoch + 1)
              (map Z.of_nat (seq 0 (Z.to_nat n_train_batches))) v)
    as [v' h] eqn:Hres.
  cbn [fst snd] in Hfl. destruct Hfl as [Hsteps Hcases].
  destruct (while_loop fuel (epoch + 1) v') as [r' |] eqn:Hw; [| discriminate].
  injection Hrun as <-. cbn [r_history r_vars].
  replace (iter_no (epoch + 1) (Z.of_nat 0)) with (epoch * n_train_batches)
    in Hsteps by (unfold Trainer.iter_no; lia).
  destruct (done_looping v') eqn:Hd.
  - destruct fuel; cbn [Trainer.while_loop] in Hw; rewrite Hd in Hw;
      rewrite andb_false_r in Hw; injection Hw as <-;
      cbn [r_history r_vars]; now rewrite app_nil_r.
  - destruct Hcases as [(Hnb & Hl & _) | Habs]; [| discriminate].
    apply steps_from_app with (v1 := v'); auto.
    rewrite Hl.
    replace (epoch * n_train_batches + Z.of_nat (Z.to_nat n_train_batches))
      with ((epoch + 1) * n_train_batches) by lia.
    apply IH; auto; lia.
Qed.

Lemma while_loop_no_batches fuel : forall epoch v r,
  n_train_batches <= 0 ->
  while_loop fuel epoch v = Some r -> r_history r = [] /\ r_vars r = v.
Proof.
  induction fuel as [| fuel IH]; intros epoch v r Hn Hrun;
    cbn [Trainer.while_loop] in Hrun;
    destruct ((epoch <? n_epochs) && negb (done_looping v));
    try discriminate; try (now injection Hrun as <-).
  unfold Py.range in Hrun.
  replace (Z.to_nat n_train_batches) with 0%nat in Hrun by lia.
  cbn in Hrun.
  destruct (while_loop fuel (epoch + 1) v) as [r' |] eqn:Hw; [| discriminate].
  injection Hrun as <-. cbn. eauto.
Qed.

Lemma training_steps fuel r :
  training fuel = Some r ->
  steps_from 0 initial_vars (r_history r) (r_vars r).
Proof.
  unfold Trainer.training. intros Hrun.
  destruct (Z.le_gt_cases 0 n_train_batches) as [Hn | Hn].
  - now apply (while_loop_steps fuel 0 initial_vars r Hn ltac:(lia)).
  - destruct (while_loop_no_batches fuel 0 initial_vars r ltac:(lia) Hrun)
      as [-> ->].
    constructor.
Qed.

Lemma while_loop_terminates fuel : forall epoch v,
  (Z.to_nat (n_epochs - epoch) <= fuel)%nat ->
  exists r, while_loop fuel epoch v = Some r.
Proof.
  induction fuel as [| fuel IH]; intros epoch v Hfuel;
    cbn [Trainer.while_loop];
    destruct ((epoch <? n_epochs) && negb (done_looping v)) eqn:Hc;
    eauto;
    apply andb_true_iff in Hc; destruct Hc as [Hlt _];
    apply Z.ltb_lt in Hlt; [lia |].
  destruct (for_loop (epoch + 1) (Py.range n_train_batches) v) as [v' h].
  destruct (IH (epoch + 1) v' ltac:(lia)) as [r ->]. eauto.
Qed.

Lemma while_loop_more_fuel fuel : forall fuel' epoch v r,
  (fuel <= fuel')%nat ->
  while_loop fuel epoch v = Some r -> while_loop fuel' epoch v = Some r.
Proof.
  induction fuel as [| fuel IH]; intros fuel' epoch v r Hle Hrun;
    cbn [Trainer.while_loop] in Hrun;
    (destruct fuel' as [| fuel']; [| cbn [Trainer.while_loop]]);
    try (cbn [Trainer.while_loop]);
    destruct ((epoch <? n_epochs) && negb (done_looping v));
    try discriminate; auto; try lia.
  destruct (for_loop (epoch + 1) (Py.range n_train_batches) v) as [v' h].
  destruct (while_loop fuel (epoch + 1) v') as [r' |] eqn:Hw; [| discriminate].
  now rewrite (IH fuel' _ _ _ ltac:(lia) Hw).
Qed.

Lemma while_loop_epoch fuel : forall epoch v r,
  while_loop fuel epoch v = Some r ->
  epoch <= r_epoch r <= Z.max epoch n_epochs.
Proof.
  induction fuel as [| fuel IH]; intros epoch v r Hrun;
    cbn [Trainer.while_loop] in Hrun;
    destruct ((epoch <? n_epochs) && negb (done_looping v)) eqn:Hc;
    try discriminate; try (injection Hrun as <-; cbn; lia).
  apply andb_true_iff in Hc. destruct Hc as [Hlt _]. apply Z.ltb_lt in Hlt.
  destruct (for_loop (epoch + 1) (Py.range n_train_batches) v) as [v' h].
  destruct (while_loop fuel (epoch + 1) v') as [r' |] eqn:Hw; [| discriminate].
  injection Hrun as <-. cbn [r_epoch].
  specialize (IH _ _ _ Hw). lia.
Qed.

Lemma training_returns fuel (dflt : run params) :
  (Z.to_nat n_epochs <= fuel)%nat ->
  training fuel
  = Some match training fuel with Some r => r | None => dflt end.
Proof.
  intros Hfuel. unfold Trainer.training.
  destruct (while_loop_terminates fuel 0 initial_vars ltac:(lia)) as [r ->].
  reflexivity.
Qed.

(** *** Early exit *)

Lemma step_ok_bound k s :
  0 <= n_train_batches -> step_ok k s -> 0 <= k < n_epochs * n_train_batches.
Proof.
  intros Hn (Hk & Hm & He & _). unfold Trainer.iter_no in Hk. nia.
Qed.

Lemma steps_from_length k v h v' :
  steps_from k v h v' -> h <> [] ->
  k + Z.of_nat (length h) <= n_epochs * n_train_batches.
Proof.
  induction 1 as [k v | k s h v' Hok Hbrk Hrest IH]; intros Hne;
    [congruence |].
  assert (Hn : 0 <= n_train_batches) by (destruct Hok as (_ & ? & _); lia).
  pose proof (step_ok_bound _ _ Hn Hok) as Hb.
  destruct h as [| s' h].
  - cbn. lia.
  - specialize (IH ltac:(discriminate)). cbn [length] in *. lia.
Qed.

Lemma steps_from_exit k v h v' :
  steps_from k v h v' -> k <= patience v ->
  forall h1 s h2, h = h1 ++ s :: h2 ->
    iter_no (st_epoch s) (st_minibatch s) = k + Z.of_nat (length h1)
    /\ (st_break s = false ->
        iter_no (st_epoch s) (st_minibatch s) < patience (st_after s))
    /\ (st_break s = true ->
        h2 = [] /\ st_after s = v' /\ done_looping v' = true
        /\ iter_no (st_epoch s) (st_minibatch s) = patience v').
Proof.
  induction 1 as [k v | k s0 h v' Hok Hbrk Hrest IH]; intros Hk h1 s h2 Heq.
  - now destruct h1.
  - destruct Hok as (Hi & _ & _ & Hs).
    pose proof (body_patience (st_epoch s0) (st_minibatch s0) (st_before s0))
      as Hp.
    pose proof (body_break (st_epoch s0) (st_minibatch s0) (st_before s0))
      as Hb.
    pose proof (body_done (st_epoch s0) (st_minibatch s0) (st_before s0))
      as Hd.
    rewrite <- Hs in Hp, Hb, Hd. rewrite Hi in Hb.
    destruct h1 as [| s1 h1]; cbn [app] in Heq; injection Heq as <- ->.
    + cbn [length]. split; [lia |]. split; intros Hbs; rewrite Hbs in *.
      * symmetry in Hb. rewrite Z.geb_leb in Hb. apply Z.leb_gt in Hb. lia.
      * symmetry in Hb. apply Z.geb_le in Hb.
        specialize (Hbrk eq_refl). subst h2.
        inversion Hrest; subst. repeat split; auto. lia.
    + assert (Hnb : st_break s0 = false).
      { destruct (st_break s0); auto. specialize (Hbrk eq_refl).
        now destruct h1. }
      rewrite Hnb in Hb. symmetry in Hb.
      rewrite Z.geb_leb in Hb. apply Z.leb_gt in Hb.
      destruct (IH ltac:(lia) h1 s h2 eq_refl) as (Hi' & Hlt & Hbr).
      cbn [length]. split; [lia |]. split; auto.
Qed.

(** *** Validation checkpoints *)

Lemma validation_freq_pos k s :
  step_ok k s -> 0 < validation_freq.
Proof.
  intros (_ & Hm & _). unfold Trainer.validation_freq, initial_patience.
  change (5000 / 2) with 2500. lia.
Qed.

Lemma is_checkpoint_divide e m :
  0 < validation_freq ->
  is_checkpoint e m = true <-> (validation_freq | iter_no e m + 1).
Proof.
  intros Hpos. unfold Trainer.is_checkpoint. rewrite Z.eqb_eq.
  apply Z.mod_divide. lia.
Qed.

Lemma not_In_validate_test (l : list Z) i :
  ~ In (@EvValidate params i) (map EvTest l).
Proof.
  induction l as [| j l IH]; cbn; [tauto |].
  intros [H | H]; [discriminate | tauto].
Qed.

Lemma body_checkpoint_events e m v :
  is_checkpoint e m = true ->
  exists rest,
    st_events (body e m v)
    = EvTrain m
        :: map EvValidate (Py.range n_validate_batches)
        ++ EvPrintValidation e (m + 1) n_train_batches
             (validation_loss_of (classifier (st_after (body e m v))) * 100)%float
        :: rest
    /\ forall i, ~ In (EvValidate i) rest.
Proof.
  intros Hc. rewrite body_classifier.
  unfold Trainer.body, Trainer.train_and_validate. rewrite Hc.
  destruct (Trainer.train_model _ _ _ _ _ _ _ _) as [cost c]. cbn [snd].
  unfold Trainer.checkpoint, Trainer.improved. cbn [classifier].
  destruct (PrimFloat.ltb _ _);
    repeat match goal with
      | |- context [if Trainer.early_exit ?p ?n ?e ?m ?v then _ else _] =>
          destruct (Trainer.early_exit p n e m v)
      end; cbn [st_events]; rewrite <- ?app_assoc; cbn [app];
    eexists; (split; [reflexivity |]); intros i Hin.
  all: try (apply in_app_or in Hin; destruct Hin as [Hin | Hin];
            [now apply not_In_validate_test in Hin
            | cbn in Hin; intuition discriminate]).
  all: destruct Hin.
Qed.

Lemma body_plain_events e m v :
  is_checkpoint e m = false -> st_events (body e m v) = [EvTrain m].
Proof.
  intros Hc. unfold Trainer.body, Trainer.train_and_validate. rewrite Hc.
  destruct (Trainer.train_model _ _ _ _ _ _ _ _) as [cost c].
  now destruct (Trainer.early_exit _ _ _ _ _).
Qed.

Lemma body_improvement e m v :
  is_checkpoint e m = true ->
  let s := body e m v in
  let validation_loss := validation_loss_of (classifier (st_after s)) in
  let best := best_validation_loss v in
  (validation_loss <? best)%float = true ->
  ((validation_loss <? improvement_thresh * best)%float = true ->
   patience (st_after s) = Z.max (patience v) (iter_no e m * 2))
  /\ ((validation_loss <? improvement_thresh * best)%float = false ->
      patience (st_after s) = patience v)
  /\ best_validation_loss (st_after s) = validation_loss.
Proof.
  intros Hc. cbv zeta. rewrite body_classifier.
  unfold Trainer.body, Trainer.train_and_validate. rewrite Hc.
  destruct (Trainer.train_model _ _ _ _ _ _ _ _) as [cost c]. cbn [snd].
  unfold Trainer.checkpoint, Trainer.improved, patience_mult.
  cbn [classifier best_validation_loss patience].
  intros Hlt. rewrite Hlt.
  destruct (PrimFloat.ltb _ (improvement_thresh * _)) eqn:Hm;
    repeat match goal with
      | |- context [if Trainer.early_exit ?p ?n ?e ?m ?v then _ else _] =>
          destruct (Trainer.early_exit p n e m v)
      end;
    cbn [st_after Trainer.set_done_looping patience best_validation_loss];
    repeat split; intros; congruence.
Qed.

(** C1. At a checkpoint of a run where the freshly computed validation
    loss is below the best one seen so far: when it is also below 0.995
    times that best value, patience becomes the larger of patience and twice
    the global iteration index; when it is not, patience stays as it was;
    either way the best value becomes the new loss. *)
Theorem patience_extended_iff_significant fuel r s :
  training fuel = Some r ->
  In s (r_history r) ->
  is_checkpoint (st_epoch s) (st_minibatch s) = true ->
  let validation_loss := validation_loss_of (classifier (st_after s)) in
  let best := best_validation_loss (st_before s) in
  (validation_loss <? best)%float = true ->
  ((validation_loss <? improvement_thresh * best)%float = true ->
   patience (st_after s)
   = Z.max (patience (st_before s))
       (iter_no (st_epoch s) (st_minibatch s) * 2))
  /\ ((validation_loss <? improvement_thresh * best)%float = false ->
      patience (st_after s) = patience (st_before s))
  /\ best_validation_loss (st_after s) = validation_loss.
Proof.
  intros Hrun Hin Hc.
  destruct (steps_from_In _ _ _ _ _ (training_steps _ _ Hrun) Hin)
    as [k (_ & _ & _ & Hs)].
  pose proof (body_improvement _ _ (st_before s) Hc) as H.
  now rewrite <- Hs in H.
Qed.

(** *** Counting gradient steps *)

Lemma n_train_calls_app (l1 l2 : list (event params)) :
  n_train_calls params (l1 ++ l2)
  = (n_train_calls params l1 + n_train_calls params l2)%nat.
Proof.
  induction l1 as [| e l1 IH]; [reflexivity |].
  destruct e; cbn; rewrite IH; reflexivity.
Qed.

Lemma n_train_calls_validate (l : list Z) :
  n_train_calls params (map EvValidate l) = 0%nat.
Proof. induction l; cbn; auto. Qed.

Lemma n_train_calls_test (l : list Z) :
  n_train_calls params (map EvTest l) = 0%nat.
Proof. induction l; cbn; auto. Qed.

Lemma body_one_train_call e m v :
  n_train_calls params (st_events (body e m v)) = 1%nat.
Proof.
  open_body; cbn [n_train_calls];
    rewrite ?n_train_calls_app, ?n_train_calls_validate,
      ?n_train_calls_test; reflexivity.
Qed.

Lemma steps_from_train_calls k v h v' :
  steps_from k v h v' ->
  n_train_calls params (concat (map st_events h)) = length h.
Proof.
  induction 1 as [k v | k s h v' Hok Hbrk Hrest IH]; [reflexivity |].
  destruct Hok as (_ & _ & _ & Hs).
  cbn [map concat length]. rewrite n_train_calls_app, IH, Hs.
  now rewrite body_one_train_call.
Qed.

(** C2. The loop returns once unrolled [n_epochs] times (and more
    unrolling changes nothing). In what it returns: the epoch counter is at
    most [n_epochs]; [train_model] was called at most
    [n_epochs * n_train_batches] times; the steps carry the global
    iteration indices 0, 1, 2, ... in order; a step breaks exactly when its
    index has reached the patience bound as the step leaves it, and
    otherwise the index is below that bound; a step that breaks is the last
    one, it sets [done_looping], and its index equals the final patience
    bound, so no step with an index beyond patience is ever run. *)
Theorem training_terminates :
  (exists r, training (Z.to_nat n_epochs) = Some r)
  /\ forall fuel r, training fuel = Some r ->
       (forall fuel', (fuel <= fuel')%nat -> training fuel' = Some r)
       /\ 0 <= r_epoch r <= Z.max 0 n_epochs
       /\ (n_train_calls params (log params r)
           <= Z.to_nat n_epochs * Z.to_nat n_train_batches)%nat
       /\ forall h1 s h2, r_history r = h1 ++ s :: h2 ->
            let k := iter_no (st_epoch s) (st_minibatch s) in
            k = Z.of_nat (length h1)
            /\ st_epoch s <= n_epochs
            /\ st_break s = (k >=? patience (st_after s))
            /\ k <= patience (st_after s)
            /\ (st_break s = true ->
                h2 = [] /\ r_vars r = st_after s
                /\ done_looping (r_vars r) = true
                /\ k = patience (r_vars r)).
Proof.
  split.
  - apply while_loop_terminates. lia.
  - intros fuel r Hrun.
    pose proof (training_steps _ _ Hrun) as Hsteps.
    split; [| split; [| split]].
    + intros fuel' Hle. now apply while_loop_more_fuel with (fuel := fuel).
    + apply while_loop_epoch in Hrun. lia.
    + unfold log. rewrite (steps_from_train_calls _ _ _ _ Hsteps).
      destruct (r_history r) as [| s h] eqn:Hh; [cbn; lia |].
      pose proof (steps_from_length _ _ _ _ Hsteps ltac:(discriminate)) as Hl.
      assert (Hin : In s (s :: h)) by now left.
      destruct (steps_from_In _ _ _ _ _ Hsteps Hin) as [k Hok].
      pose proof Hok as (_ & Hm & He & _).
      apply Nat2Z.inj_le. rewrite Nat2Z.inj_mul, !Z2Nat.id by lia. lia.
    + intros h1 s h2 Hh. cbv zeta.
      destruct (steps_from_exit _ _ _ _ Hsteps
                  ltac:(unfold Trainer.initial_vars, initial_patience; cbn; lia)
                  _ _ _ Hh)
        as (Hk & Hnb & Hb).
      assert (Hin : In s (r_history r))
        by (rewrite Hh; apply in_or_app; right; now left).
      destruct (steps_from_In _ _ _ _ _ Hsteps Hin) as [k (_ & _ & He & Hs)].
      pose proof (body_break (st_epoch s) (st_minibatch s) (st_before s))
        as Hbrk.
      rewrite <- Hs in Hbrk.
      split; [lia |]. split; [lia |]. split; [exact Hbrk |]. split.
      * destruct (st_break s) eqn:Hbs.
        -- destruct (Hb eq_refl) as (_ & -> & _ & ->). lia.
        -- specialize (Hnb eq_refl). lia.
      * intros Hbs. destruct (Hb Hbs) as (-> & <- & Hd & Hp). auto.
Qed.

(** C3. Along a run patience never decreases: the first step starts
    from 5000, every step leaves patience at least as large as it found it,
    and of two steps (so of two checkpoints) the later one finds and leaves
    patience at least as large as the earlier one left it. *)
Theorem patience_never_decreases fuel r :
  training fuel = Some r ->
  (forall s h, r_history r = s :: h -> patience (st_before s) = 5000)
  /\ (forall s, In s (r_history r) ->
        5000 <= patience (st_before s) <= patience (st_after s))
  /\ (forall h1 s1 h2 s2 h3, r_history r = h1 ++ s1 :: h2 ++ s2 :: h3 ->
        patience (st_after s1) <= patience (st_before s2)
        /\ patience (st_before s2) <= patience (st_after s2))
  /\ (forall s, In s (r_history r) ->
        patience (st_after s) <= patience (r_vars r)).
Proof.
  intros Hrun. pose proof (training_steps _ _ Hrun) as Hsteps.
  assert (Hstep : forall s, In s (r_history r) ->
                    patience (st_before s) <= patience (st_after s)).
  { intros s Hin.
    destruct (steps_from_In _ _ _ _ _ Hsteps Hin) as [k (_ & _ & _ & Hs)].
    pose proof (body_patience (st_epoch s) (st_minibatch s) (st_before s)).
    now rewrite <- Hs in *. }
  assert (Hfrom : forall h1 s h2, r_history r = h1 ++ s :: h2 ->
            5000 <= patience (st_before s)
            /\ forall s', In s' h2 ->
                 patience (st_after s) <= patience (st_before s')
                 /\ patience (st_after s') <= patience (r_vars r)).
  { intros h1 s h2 Hh. rewrite Hh in Hsteps.
    apply steps_from_split in Hsteps. destruct Hsteps as [vm [H1 H2]].
    apply steps_from_patience in H1.
    unfold Trainer.initial_vars, initial_patience in H1. cbn in H1.
    inversion H2 as [| ? ? ? ? _ _ Hrest]; subst. split; [exact H1 |].
    intros s' Hin. apply in_split in Hin. destruct Hin as [l1 [l2 ->]].
    apply steps_from_split in Hrest. destruct Hrest as [vm' [H3 H4]].
    apply steps_from_patience in H3.
    inversion H4 as [| ? ? ? ? _ _ Hrest']; subst.
    apply steps_from_patience in Hrest'. auto. }
  split; [| split; [| split]].
  - intros s h Hh. rewrite Hh in Hsteps.
    inversion Hsteps as [| ? ? ? ? _ _ _ Hk Hv]; subst. now rewrite Hv.
  - intros s Hin. specialize (Hstep s Hin).
    apply in_split in Hin. destruct Hin as [h1 [h2 Hh]].
    destruct (Hfrom _ _ _ Hh). lia.
  - intros h1 s1 h2 s2 h3 Hh.
    destruct (Hfrom _ _ _ Hh) as [_ Hlater].
    assert (Hin2 : In s2 (h2 ++ s2 :: h3))
      by (apply in_or_app; right; now left).
    split; [apply (Hlater _ Hin2) |].
    apply Hstep. rewrite Hh. apply in_or_app. right. now right.
  - intros s Hin. apply in_split in Hin. destruct Hin as [h1 [h2 Hh]].
    rewrite Hh in Hsteps.
    apply steps_from_split in Hsteps. destruct Hsteps as [vm [_ H2]].
    inversion H2 as [| ? ? ? ? _ _ Hrest]; subst.
    now apply steps_from_patience in Hrest.
Qed.

(** What a pass through the body computes from the data, with the calls
    of the compiled functions written out: the classifier is what
    [train_fn] returns for the batch [givens] cuts from the training split
    under the batch index; the validation loss is the mean of [errors_fn] on
    the batches of the validation split under [range(n_validate_batches)],
    the test error the same on the test split; nothing else enters the
    variables or the reports. *)
Lemma body_feeds e m v :
  let s := body e m v in
  let c := snd (train_fn (classifier v) (givens train_set m)) in
  let validation_loss :=
    np_mean (map (fun i => errors_fn c (givens validate_set i))
               (Py.range n_validate_batches)) in
  let test_error :=
    np_mean (map (fun i => errors_fn c (givens test_set i))
               (Py.range n_test_batches)) in
  let improves :=
    is_checkpoint e m && (validation_loss <? best_validation_loss v)%float in
  classifier (st_after s) = c
  /\ best_validation_loss (st_after s)
     = (if improves then validation_loss else best_validation_loss v)
  /\ test_score (st_after s)
     = (if improves then (1 - test_error)%float else test_score v)
  /\ (forall e' m' n' p,
        In (EvPrintValidation e' m' n' p) (st_events s) ->
        p = (validation_loss * 100)%float)
  /\ (forall e' m' n' p,
        In (EvPrintTest e' m' n' p) (st_events s) ->
        p = ((1 - test_error) * 100)%float).
Proof.
  cbv zeta.
  unfold Trainer.body, Trainer.train_and_validate, Trainer.train_model.
  destruct (train_fn (classifier v) (givens train_set m)) as [cost c].
  cbn [snd].
  unfold Trainer.checkpoint, Trainer.improved, Trainer.validation_loss_of,
    Trainer.test_score_of, Trainer.validate_model, Trainer.test_model.
  cbn [classifier best_validation_loss test_score].
  destruct (Trainer.is_checkpoint _ _ _); cbn [andb];
    repeat match goal with
      | |- context [if PrimFloat.ltb ?a ?b then _ else _] =>
          destruct (PrimFloat.ltb a b)
      end;
    repeat match goal with
      | |- context [if Trainer.early_exit ?p ?n ?e ?m ?v then _ else _] =>
          destruct (Trainer.early_exit p n e m v)
      end;
    cbn [st_after st_events Trainer.set_done_looping classifier
         best_validation_loss test_score];
    (split; [reflexivity |]); (split; [reflexivity |]);
    (split; [reflexivity |]);
    split; intros e' m' n' p Hin;
    repeat match type of Hin with
      | In _ (_ :: _) => destruct Hin as [Hin | Hin]
      | In _ (_ ++ _) => apply in_app_or in Hin; destruct Hin as [Hin | Hin]
      | In _ (map _ _) =>
          apply in_map_iff in Hin; destruct Hin as [? [Hin _]]
      | In _ [] => destruct Hin
      end;
    congruence.
Qed.

Lemma step_feeds fuel r s :
  training fuel = Some r ->
  In s (r_history r) ->
  let c :=
    snd (train_fn (classifier (st_before s))
           (givens train_set (st_minibatch s))) in
  let validation_loss :=
    np_mean (map (fun i => errors_fn c (givens validate_set i))
               (Py.range n_validate_batches)) in
  let test_error :=
    np_mean (map (fun i => errors_fn c (givens test_set i))
               (Py.range n_test_batches)) in
  let improves :=
    is_checkpoint (st_epoch s) (st_minibatch s)
    && (validation_loss <? best_validation_loss (st_before s))%float in
  classifier (st_after s) = c
  /\ best_validation_loss (st_after s)
     = (if improves then validation_loss
        else best_validation_loss (st_before s))
  /\ test_score (st_after s)
     = (if improves then (1 - test_error)%float else test_score (st_before s))
  /\ (forall e' m' n' p,
        In (EvPrintValidation e' m' n' p) (st_events s) ->
        p = (validation_loss * 100)%float)
  /\ (forall e' m' n' p,
        In (EvPrintTest e' m' n' p) (st_events s) ->
        p = ((1 - test_error) * 100)%float).
Proof.
  intros Hrun Hin.
  destruct (steps_from_In _ _ _ _ _ (training_steps _ _ Hrun) Hin)
    as [k (_ & _ & _ & Hs)].
  pose proof (body_feeds (st_epoch s) (st_minibatch s) (st_before s)) as H.
  now rewrite <- Hs in H.
Qed.

(** C4. The validation frequency is the smaller of the number of
    training batches and half the initial patience. A step of a run makes a
    validation pass exactly when its global iteration index plus one is a
    multiple of that frequency: it then calls [validate_model] once per
    validation batch, in the order of [range(n_validate_batches)], takes the
    mean of what the calls return, each being [errors_fn] on the batch
    [givens] cuts from the validation split, for the classifier that
    [train_fn] has just returned, reports one hundred times that mean, and
    compares it with the best loss so far. Any other step only trains, and
    leaves the best loss alone. *)
Theorem validation_every_validation_freq fuel r s :
  training fuel = Some r ->
  In s (r_history r) ->
  let k := iter_no (st_epoch s) (st_minibatch s) in
  let c := classifier (st_after s) in
  let best := best_validation_loss (st_before s) in
  let validation_loss :=
    np_mean (map (fun i => errors_fn c (givens validate_set i))
               (Py.range n_validate_batches)) in
  validation_freq = Z.min n_train_batches (5000 / 2)
  /\ 0 < validation_freq
  /\ c = snd (train_fn (classifier (st_before s))
               (givens train_set (st_minibatch s)))
  /\ ((validation_freq | k + 1) ->
      (exists rest,
         st_events s
         = EvTrain (st_minibatch s)
             :: map EvValidate (Py.range n_validate_batches)
             ++ EvPrintValidation (st_epoch s) (st_minibatch s + 1)
                  n_train_batches (validation_loss * 100)%float
             :: rest
         /\ forall i, ~ In (EvValidate i) rest)
      /\ best_validation_loss (st_after s)
         = (if (validation_loss <? best)%float then validation_loss
            else best))
  /\ (~ (validation_freq | k + 1) ->
      st_events s = [EvTrain (st_minibatch s)]
      /\ best_validation_loss (st_after s) = best).
Proof.
  intros Hrun Hin. cbv zeta.
  pose proof (step_feeds _ _ _ Hrun Hin) as Hfeed. cbv zeta in Hfeed.
  destruct Hfeed as (Hcl & Hbest & _). rewrite <- Hcl in Hbest.
  destruct (steps_from_In _ _ _ _ _ (training_steps _ _ Hrun) Hin)
    as [k Hok].
  pose proof (validation_freq_pos _ _ Hok) as Hpos.
  destruct Hok as (_ & _ & _ & Hs).
  split; [reflexivity |]. split; [exact Hpos |]. split; [exact Hcl |]. split.
  - intros Hdiv. apply is_checkpoint_divide in Hdiv; [| exact Hpos]. split.
    + pose proof (body_checkpoint_events _ _ (st_before s) Hdiv) as H.
      rewrite <- Hs in H. exact H.
    + rewrite Hbest, Hdiv. reflexivity.
  - intros Hndiv.
    assert (Hc : is_checkpoint (st_epoch s) (st_minibatch s) = false).
    { destruct (is_checkpoint (st_epoch s) (st_minibatch s)) eqn:Hc; auto.
      apply is_checkpoint_divide in Hc; tauto. }
    split.
    + pose proof (body_plain_events _ _ (st_before s) Hc) as H.
      now rewrite <- Hs in H.
    + rewrite Hbest, Hc. reflexivity.
Qed.

(** *** What an improvement leaves behind *)

Lemma saved_model_app (file : option params) (l1 l2 : list (event params)) :
  saved_model params file (l1 ++ l2)
  = saved_model params (saved_model params file l1) l2.
Proof.
  revert file. induction l1 as [| e l1 IH]; intros file; [reflexivity |].
  destruct e; cbn; apply IH.
Qed.

Lemma saved_model_validate (file : option params) (l : list Z) :
  saved_model params file (map EvValidate l) = file.
Proof. induction l; cbn; auto. Qed.

Lemma saved_model_test (file : option params) (l : list Z) :
  saved_model params file (map EvTest l) = file.
Proof. induction l; cbn; auto. Qed.

(** A step whose checkpoint finds a validation loss below the best one:
    after the validation pass it calls [test_model] on every test batch,
    reports one hundred times the new [test_score], which is one minus the
    mean test error, and dumps the classifier over whatever the file held. *)
Lemma body_improved_events e m v :
  is_checkpoint e m = true ->
  let s := body e m v in
  let c := classifier (st_after s) in
  (validation_loss_of c <? best_validation_loss v)%float = true ->
  st_events s
  = EvTrain m
      :: map EvValidate (Py.range n_validate_batches)
      ++ [EvPrintValidation e (m + 1) n_train_batches
            (validation_loss_of c * 100)%float]
      ++ map EvTest (Py.range n_test_batches)
      ++ [EvPrintTest e (m + 1) n_train_batches (test_score_of c * 100)%float;
          EvDump c]
  /\ test_score (st_after s) = test_score_of c
  /\ forall file, saved_model params file (st_events s) = Some c.
Proof.
  intros Hc. cbv zeta. rewrite body_classifier.
  unfold Trainer.body, Trainer.train_and_validate. rewrite Hc.
  destruct (Trainer.train_model _ _ _ _ _ _ _ _) as [cost c]. cbn [snd].
  unfold Trainer.checkpoint, Trainer.improved.
  cbn [classifier best_validation_loss patience].
  intros Hlt. rewrite Hlt.
  repeat match goal with
    | |- context [if Trainer.early_exit ?p ?n ?e ?m ?v then _ else _] =>
        destruct (Trainer.early_exit p n e m v)
    end;
    cbn [st_after st_events Trainer.set_done_looping test_score];
    (split; [now rewrite <- app_assoc |]); (split; [reflexivity |]);
    intros file; cbn [saved_model];
    rewrite !saved_model_app, saved_model_validate; cbn [saved_model];
    rewrite ?saved_model_test; reflexivity.
Qed.

(** Any other step leaves the file alone and reports no test score. *)
Lemma body_unimproved_events e m v :
  let s := body e m v in
  let c := classifier (st_after s) in
  is_checkpoint e m = false
  \/ (validation_loss_of c <? best_validation_loss v)%float = false ->
  (forall file, saved_model params file (st_events s) = file)
  /\ (forall c', ~ In (EvDump c') (st_events s))
  /\ test_score (st_after s) = test_score v.
Proof.
  cbv zeta. rewrite body_classifier.
  unfold Trainer.body, Trainer.train_and_validate.
  destruct (Trainer.train_model _ _ _ _ _ _ _ _) as [cost c]. cbn [snd].
  unfold Trainer.checkpoint, Trainer.improved.
  cbn [classifier best_validation_loss patience].
  intros Hcase.
  destruct (Trainer.is_checkpoint _ _ _) eqn:Hc.
  - destruct Hcase as [? | Hlt]; [discriminate |]. rewrite Hlt.
    repeat match goal with
      | |- context [if Trainer.early_exit ?p ?n ?e ?m ?v then _ else _] =>
          destruct (Trainer.early_exit p n e m v)
      end;
      cbn [st_after st_events Trainer.set_done_looping test_score];
      (split; [| split; [| reflexivity]]).
    all: try (intros file; cbn [saved_model];
              now rewrite saved_model_app, saved_model_validate).
    all: intros c' [Hin | Hin]; [discriminate |];
      apply in_app_or in Hin; destruct Hin as [Hin | Hin];
      [ apply in_map_iff in Hin; destruct Hin as [? [? _]]; discriminate
      | cbn in Hin; intuition discriminate ].
  - repeat match goal with
      | |- context [if Trainer.early_exit ?p ?n ?e ?m ?v then _ else _] =>
          destruct (Trainer.early_exit p n e m v)
      end;
      cbn [st_after st_events Trainer.set_done_looping test_score];
      (split; [| split; [| reflexivity]]); auto;
      intros c' [Hin | []]; discriminate.
Qed.

Lemma body_untested_events e m v :
  let s := body e m v in
  let c := classifier (st_after s) in
  is_checkpoint e m = false
  \/ (validation_loss_of c <? best_validation_loss v)%float = false ->
  forall i, ~ In (EvTest i) (st_events s).
Proof.
  cbv zeta. rewrite body_classifier.
  unfold Trainer.body, Trainer.train_and_validate.
  destruct (Trainer.train_model _ _ _ _ _ _ _ _) as [cost c]. cbn [snd].
  unfold Trainer.checkpoint, Trainer.improved.
  cbn [classifier best_validation_loss patience].
  intros Hcase i.
  destruct (Trainer.is_checkpoint _ _ _) eqn:Hc.
  - destruct Hcase as [? | Hlt]; [discriminate |]. rewrite Hlt.
    repeat match goal with
      | |- context [if Trainer.early_exit ?p ?n ?e ?m ?v then _ else _] =>
          destruct (Trainer.early_exit p n e m v)
      end;
      cbn [st_events]; intros [Hin | Hin]; try discriminate;
      apply in_app_or in Hin; destruct Hin as [Hin | [Hin | []]];
      try discriminate;
      apply in_map_iff in Hin; destruct Hin as [? [? _]]; discriminate.
  - repeat match goal with
      | |- context [if Trainer.early_exit ?p ?n ?e ?m ?v then _ else _] =>
          destruct (Trainer.early_exit p n e m v)
      end;
      cbn [st_events]; intros [Hin | []]; discriminate.
Qed.

(** X1. Along a run: a checkpoint that improves on the best validation
    loss, by whatever margin, calls [test_model] once per test batch, in the
    order of [range(n_test_batches)], sets [test_score] to one minus the
    mean of what the calls return, each being [errors_fn] on the batch
    [givens] cuts from the test split, reports [test_score * 100], and
    overwrites the saved model with the current classifier. No other step
    tests, changes [test_score] or writes the file. *)
Lemma improvement_is_persisted fuel r s :
  training fuel = Some r ->
  In s (r_history r) ->
  let c := classifier (st_after s) in
  let validation_loss :=
    np_mean (map (fun i => errors_fn c (givens validate_set i))
               (Py.range n_validate_batches)) in
  let test_error :=
    np_mean (map (fun i => errors_fn c (givens test_set i))
               (Py.range n_test_batches)) in
  let improves :=
    is_checkpoint (st_epoch s) (st_minibatch s)
    && (validation_loss <? best_validation_loss (st_before s))%float in
  (improves = true ->
   (exists report,
      st_events s
      = report ++ map EvTest (Py.range n_test_batches)
          ++ [EvPrintTest (st_epoch s) (st_minibatch s + 1) n_train_batches
                ((1 - test_error) * 100)%float;
              EvDump c]
      /\ forall i, ~ In (EvTest i) report)
   /\ test_score (st_after s) = (1 - test_error)%float
   /\ forall file, saved_model params file (st_events s) = Some c)
  /\ (improves = false ->
      (forall file, saved_model params file (st_events s) = file)
      /\ (forall c', ~ In (EvDump c') (st_events s))
      /\ (forall i, ~ In (EvTest i) (st_events s))
      /\ test_score (st_after s) = test_score (st_before s)).
Proof.
  intros Hrun Hin. cbv zeta.
  pose proof (step_feeds _ _ _ Hrun Hin) as Hfeed. cbv zeta in Hfeed.
  destruct Hfeed as (Hcl & _ & Hts & _). rewrite <- Hcl in Hts.
  destruct (steps_from_In _ _ _ _ _ (training_steps _ _ Hrun) Hin)
    as [k (_ & _ & _ & Hs)].
  split; intros Himp; rewrite Himp in Hts.
  - apply andb_true_iff in Himp. destruct Himp as [Hc Hlt].
    pose proof (body_improved_events _ _ (st_before s) Hc) as H.
    cbv zeta in H. rewrite <- Hs in H. destruct (H Hlt) as (Hev & _ & Hsave).
    split; [| split; [exact Hts | exact Hsave]].
    exists (EvTrain (st_minibatch s)
              :: map EvValidate (Py.range n_validate_batches)
              ++ [EvPrintValidation (st_epoch s) (st_minibatch s + 1)
                    n_train_batches
                    (validation_loss_of (classifier (st_after s)) * 100)%float]).
    split.
    + rewrite Hev. cbn [app]. f_equal. now rewrite <- app_assoc.
    + intros i [Hi | Hi]; [discriminate |].
      apply in_app_or in Hi. destruct Hi as [Hi | [Hi | []]];
        [| discriminate].
      apply in_map_iff in Hi. destruct Hi as [? [? _]]. discriminate.
  - apply andb_false_iff in Himp.
    pose proof (body_unimproved_events (st_epoch s) (st_minibatch s)
                  (st_before s)) as H.
    cbv zeta in H. rewrite <- Hs in H. destruct (H Himp) as (H1 & H2 & _).
    pose proof (body_untested_events (st_epoch s) (st_minibatch s)
                  (st_before s)) as H3.
    cbv zeta in H3. rewrite <- Hs in H3.
    repeat split; auto.
Qed.

(** *** The batch indices a run uses *)

Lemma In_range n i : In i (Py.range n) <-> 0 <= i < n.
Proof.
  unfold Py.range. rewrite in_map_iff. split.
  - intros [j [<- Hj]]. apply in_seq in Hj. lia.
  - intros Hi. exists (Z.to_nat i). split; [lia |]. apply in_seq. lia.
Qed.

Lemma body_event_indices e m v :
  0 <= m < n_train_batches ->
  Forall index_in_range (st_events (body e m v)).
Proof.
  intros Hm.
  assert (Hval : Forall index_in_range
                   (map EvValidate (Py.range n_validate_batches))).
  { apply Forall_forall. intros x Hx. apply in_map_iff in Hx.
    destruct Hx as [i [<- Hi]]. exact Hi. }
  assert (Htest : Forall index_in_range
                    (map EvTest (Py.range n_test_batches))).
  { apply Forall_forall. intros x Hx. apply in_map_iff in Hx.
    destruct Hx as [i [<- Hi]]. exact Hi. }
  assert (Htrain : index_in_range (EvTrain m)) by now apply In_range.
  open_body; constructor; auto;
    repeat (apply Forall_app; split); auto;
    repeat constructor.
Qed.

Lemma training_event_indices fuel r :
  training fuel = Some r -> Forall index_in_range (log params r).
Proof.
  intros Hrun. pose proof (training_steps _ _ Hrun) as Hsteps.
  unfold log. induction Hsteps as [k v | k s h v' Hok Hbrk Hrest IH];
    [constructor |].
  cbn [map concat]. apply Forall_app. split; [| exact IH].
  destruct Hok as (_ & Hm & _ & Hs). rewrite Hs.
  now apply body_event_indices.
Qed.

(** The batch index of a step is one of [range(n_train_batches)]. *)
Lemma step_index fuel r s :
  training fuel = Some r ->
  In s (r_history r) ->
  In (st_minibatch s) (Py.range n_train_batches).
Proof.
  intros Hrun Hin.
  destruct (steps_from_In _ _ _ _ _ (training_steps _ _ Hrun) Hin)
    as [k (_ & Hm & _)].
  now apply In_range.
Qed.

(** *** More on the shape of a run *)

Lemma steps_from_nth k v h v' :
  steps_from k v h v' ->
  forall h1 s h2, h = h1 ++ s :: h2 ->
    step_ok (k + Z.of_nat (length h1)) s.
Proof.
  intros Hsteps h1 s h2 ->.
  apply steps_from_split in Hsteps. destruct Hsteps as [vm [_ H2]].
  now inversion H2.
Qed.

Lemma steps_from_done k v h v' :
  steps_from k v h v' ->
  done_looping v = false -> done_looping v' = true ->
  exists h1 s, h = h1 ++ [s] /\ st_break s = true.
Proof.
  induction 1 as [k v | k s h v' Hok Hbrk Hrest IH]; intros Hv Hv';
    [congruence |].
  destruct Hok as (_ & _ & _ & Hs).
  pose proof (body_done (st_epoch s) (st_minibatch s) (st_before s)) as Hd.
  rewrite <- Hs in Hd.
  destruct (st_break s) eqn:Hb.
  - rewrite (Hbrk eq_refl). exists [], s. auto.
  - destruct (IH ltac:(congruence) Hv') as (h1 & s' & -> & Hb').
    exists (s :: h1), s'. auto.
Qed.

Lemma while_loop_stopped fuel epoch v :
  done_looping v = true ->
  while_loop fuel epoch v = Some (mkRun epoch v []).
Proof.
  intros Hd. destruct fuel; cbn [Trainer.while_loop];
    now rewrite Hd, andb_false_r.
Qed.

(** A run that ends with [done_looping] unset has gone through every
    epoch, and through every batch of each. *)
Lemma while_loop_full fuel : forall epoch v r,
  0 <= epoch ->
  while_loop fuel epoch v = Some r ->
  done_looping (r_vars r) = false ->
  r_epoch r = Z.max epoch n_epochs
  /\ length (r_history r)
     = (Z.to_nat (r_epoch r - epoch) * Z.to_nat n_train_batches)%nat.
Proof.
  induction fuel as [| fuel IH]; intros epoch v r He0 Hrun Hfin;
    cbn [Trainer.while_loop] in Hrun;
    destruct ((epoch <? n_epochs) && negb (done_looping v)) eqn:Hc;
    try discriminate.
  - injection Hrun as <-. cbn [r_epoch r_vars r_history] in *.
    rewrite Hfin, andb_true_r in Hc. apply Z.ltb_ge in Hc.
    rewrite Z.sub_diag. cbn. split; [lia | reflexivity].
  - apply andb_true_iff in Hc. destruct Hc as [Hlt Hnd].
    apply Z.ltb_lt in Hlt. apply negb_true_iff in Hnd.
    pose proof (for_loop_steps (Z.to_nat n_train_batches) 0 (epoch + 1) v
                  ltac:(lia) ltac:(lia)) as Hfl.
    cbv zeta in Hfl. unfold Py.range in Hrun.
    destruct (for_loop (epoch + 1)
                (map Z.of_nat (seq 0 (Z.to_nat n_train_batches))) v)
      as [v' h] eqn:Hres.
    cbn [fst snd] in Hfl. destruct Hfl as [_ Hcases].
    destruct (while_loop fuel (epoch + 1) v') as [r' |] eqn:Hw;
      [| discriminate].
    injection Hrun as <-. cbn [r_epoch r_vars r_history] in *.
    destruct (done_looping v') eqn:Hd.
    + rewrite (while_loop_stopped fuel (epoch + 1) v' Hd) in Hw.
      injection Hw as <-. cbn [r_vars] in Hfin. congruence.
    + destruct Hcases as [(_ & Hl & _) | Habs]; [| discriminate].
      destruct (IH (epoch + 1) v' r' ltac:(lia) Hw Hfin) as [He Hlen].
      split; [lia |].
      rewrite length_app, Hl, Hlen.
      replace (Z.to_nat (r_epoch r' - epoch))
        with (S (Z.to_nat (r_epoch r' - (epoch + 1)))) by lia.
      lia.
  - injection Hrun as <-. cbn [r_epoch r_vars r_history] in *.
    rewrite Hfin, andb_true_r in Hc. apply Z.ltb_ge in Hc.
    rewrite Z.sub_diag. cbn. split; [lia | reflexivity].
Qed.

(** X2. A run ends in one of two ways. Either [done_looping] is still
    unset: then the epoch counter has reached [n_epochs] and every batch of
    every epoch was trained on. Or [done_looping] is set: then the last step
    broke out, the number of steps is the final patience plus one, and that
    patience is at least the initial 5000. *)
Theorem run_completes_or_stops_early fuel r :
  training fuel = Some r ->
  (done_looping (r_vars r) = false
   /\ r_epoch r = Z.max 0 n_epochs
   /\ length (r_history r)
      = (Z.to_nat n_epochs * Z.to_nat n_train_batches)%nat)
  \/ (done_looping (r_vars r) = true
      /\ (exists h1 s, r_history r = h1 ++ [s] /\ st_break s = true)
      /\ Z.of_nat (length (r_history r)) = patience (r_vars r) + 1
      /\ 5000 <= patience (r_vars r)).
Proof.
  intros Hrun. pose proof (training_steps _ _ Hrun) as Hsteps.
  destruct (done_looping (r_vars r)) eqn:Hd; [right | left].
  - split; [reflexivity |].
    destruct (steps_from_done _ _ _ _ Hsteps eq_refl Hd)
      as (h1 & s & Hh & Hb).
    split; [eauto |].
    destruct (steps_from_exit _ _ _ _ Hsteps
                ltac:(unfold Trainer.initial_vars, initial_patience; cbn; lia)
                _ _ _ Hh) as (Hk & _ & Hbrk).
    destruct (Hbrk Hb) as (_ & _ & _ & Hp).
    apply steps_from_patience in Hsteps.
    unfold Trainer.initial_vars, initial_patience in Hsteps. cbn in Hsteps.
    rewrite Hh, length_app. cbn [length]. split; lia.
  - split; [reflexivity |].
    destruct (while_loop_full _ 0 _ _ ltac:(lia) Hrun Hd) as [He Hlen].
    split; [exact He |]. rewrite Hlen, He. f_equal. lia.
Qed.

(** X3. The early exit cannot come before the initial patience is
    used up: when [n_epochs * n_train_batches] is at most 5000 the run goes
    through every batch of every epoch and [done_looping] stays unset. *)
Theorem short_run_is_never_stopped fuel r :
  n_epochs * n_train_batches <= 5000 ->
  training fuel = Some r ->
  done_looping (r_vars r) = false
  /\ r_epoch r = Z.max 0 n_epochs
  /\ length (r_history r)
     = (Z.to_nat n_epochs * Z.to_nat n_train_batches)%nat.
Proof.
  intros Hshort Hrun. pose proof (training_steps _ _ Hrun) as Hsteps.
  assert (Hd : done_looping (r_vars r) = false).
  { destruct (done_looping (r_vars r)) eqn:Hd; [exfalso | reflexivity].
    destruct (steps_from_done _ _ _ _ Hsteps eq_refl Hd)
      as (h1 & s & Hh & Hb).
    destruct (steps_from_exit _ _ _ _ Hsteps
                ltac:(unfold Trainer.initial_vars, initial_patience; cbn; lia)
                _ _ _ Hh) as (Hk & _ & Hbrk).
    destruct (Hbrk Hb) as (_ & _ & _ & Hp).
    pose proof (steps_from_length _ _ _ _ Hsteps) as Hlen.
    rewrite Hh in Hlen. specialize (Hlen ltac:(now destruct h1)).
    rewrite length_app in Hlen. cbn [length] in Hlen.
    apply steps_from_patience in Hsteps.
    unfold Trainer.initial_vars, initial_patience in Hsteps. cbn in Hsteps.
    lia. }
  split; [exact Hd |].
  destruct (while_loop_full _ 0 _ _ ltac:(lia) Hrun Hd) as [He Hlen].
  split; [exact He |]. rewrite Hlen, He. f_equal. lia.
Qed.

(** X4. The steps of a run go through the batches in order, epoch
    after epoch: the step at position [k] of the history (counting from 0)
    trains on batch [k mod n_train_batches] in epoch
    [k / n_train_batches + 1]. *)
Theorem batches_in_cyclic_order fuel r h1 s h2 :
  training fuel = Some r ->
  r_history r = h1 ++ s :: h2 ->
  let k := Z.of_nat (length h1) in
  st_minibatch s = k mod n_train_batches
  /\ st_epoch s = k / n_train_batches + 1
  /\ st_events s <> []
  /\ hd_error (st_events s) = Some (EvTrain (k mod n_train_batches)).
Proof.
  intros Hrun Hh. cbv zeta.
  pose proof (steps_from_nth _ _ _ _ (training_steps _ _ Hrun) _ _ _ Hh)
    as (Hk & Hm & _ & Hs).
  unfold Trainer.iter_no in Hk. cbn [Z.add] in Hk.
  assert (Hmod : st_minibatch s = Z.of_nat (length h1) mod n_train_batches).
  { apply (Z.mod_unique _ _ (st_epoch s - 1)); [left; lia | lia]. }
  assert (Hdiv : st_epoch s - 1 = Z.of_nat (length h1) / n_train_batches).
  { apply (Z.div_unique _ _ _ (st_minibatch s)); [left; lia | lia]. }
  split; [exact Hmod |]. split; [lia |].
  rewrite <- Hmod. rewrite Hs. clear.
  open_body; split; (discriminate || reflexivity).
Qed.

(** X5. Nothing but [train_model] changes the parameters, and each
    step applies it once: a step leaves the classifier that [train_model]
    returns for the classifier it found and its batch index, so the final
    classifier is the initial one put through [train_model] along the
    history. *)
Theorem parameters_follow_train_model fuel r :
  training fuel = Some r ->
  (forall s, In s (r_history r) ->
     classifier (st_after s)
     = snd (train_model (classifier (st_before s)) (st_minibatch s)))
  /\ classifier (r_vars r)
     = fold_left (fun c s => snd (train_model c (st_minibatch s)))
         (r_history r) classifier0.
Proof.
  intros Hrun. pose proof (training_steps _ _ Hrun) as Hsteps. split.
  - intros s Hin.
    destruct (steps_from_In _ _ _ _ _ Hsteps Hin) as [k (_ & _ & _ & Hs)].
    rewrite Hs at 1. apply body_classifier.
  - change classifier0 with (classifier initial_vars).
    induction Hsteps as [k v | k s h v' Hok Hbrk Hrest IH]; [reflexivity |].
    cbn [fold_left]. rewrite IH. f_equal.
    destruct Hok as (_ & _ & _ & Hs). rewrite Hs at 1.
    apply body_classifier.
Qed.

(** *** The best model *)

Lemma body_unimproved_best e m v :
  let s := body e m v in
  is_checkpoint e m = false
  \/ (validation_loss_of (classifier (st_after s))
      <? best_validation_loss v)%float = false ->
  best_validation_loss (st_after s) = best_validation_loss v
  /\ patience (st_after s) = patience v.
Proof.
  cbv zeta. rewrite body_classifier.
  unfold Trainer.body, Trainer.train_and_validate.
  destruct (Trainer.train_model _ _ _ _ _ _ _ _) as [cost c]. cbn [snd].
  unfold Trainer.checkpoint, Trainer.improved.
  cbn [classifier best_validation_loss patience].
  intros Hcase.
  destruct (Trainer.is_checkpoint _ _ _) eqn:Hc.
  - destruct Hcase as [? | Hlt]; [discriminate |]. rewrite Hlt.
    repeat match goal with
      | |- context [if Trainer.early_exit ?p ?n ?e ?m ?v then _ else _] =>
          destruct (Trainer.early_exit p n e m v)
      end; split; reflexivity.
  - repeat match goal with
      | |- context [if Trainer.early_exit ?p ?n ?e ?m ?v then _ else _] =>
          destruct (Trainer.early_exit p n e m v)
      end; split; reflexivity.
Qed.

(** What the file holds agrees with the best loss and the test score. *)
Lemma body_keeps_best_saved e m v (file : option params) :
  match file with
  | None => best_validation_loss v = infinity /\ test_score v = 0%float
  | Some c => best_validation_loss v = validation_loss_of c
              /\ test_score v = test_score_of c
  end ->
  match saved_model params file (st_events (body e m v)) with
  | None => best_validation_loss (st_after (body e m v)) = infinity
            /\ test_score (st_after (body e m v)) = 0%float
  | Some c => best_validation_loss (st_after (body e m v))
              = validation_loss_of c
              /\ test_score (st_after (body e m v)) = test_score_of c
  end.
Proof.
  intros Hinv.
  destruct (is_checkpoint e m
            && (validation_loss_of (classifier (st_after (body e m v)))
                <? best_validation_loss v)%float) eqn:Himp.
  - apply andb_true_iff in Himp. destruct Himp as [Hc Hlt].
    destruct (body_improved_events e m v Hc Hlt) as (_ & Hts & Hsave).
    destruct (body_improvement e m v Hc Hlt) as (_ & _ & Hbest).
    rewrite Hsave. auto.
  - apply andb_false_iff in Himp.
    destruct (body_unimproved_events e m v Himp) as (Hsave & _ & Hts).
    destruct (body_unimproved_best e m v Himp) as (Hbest & _).
    rewrite Hsave, Hbest, Hts. exact Hinv.
Qed.

(** X6. The saved model is the best model. After a run: if no dump
    was made, [best_validation_loss] is still infinity and [test_score]
    still 0; otherwise the file holds a classifier whose validation loss is
    [best_validation_loss] and whose test score is [test_score]. *)
Theorem saved_model_is_best_model fuel r :
  training fuel = Some r ->
  match saved_model params None (log params r) with
  | None => best_validation_loss (r_vars r) = infinity
            /\ test_score (r_vars r) = 0%float
  | Some c => best_validation_loss (r_vars r) = validation_loss_of c
              /\ test_score (r_vars r) = test_score_of c
  end.
Proof.
  intros Hrun. pose proof (training_steps _ _ Hrun) as Hsteps.
  unfold log.
  assert (Hinit : match @None params with
                  | None => best_validation_loss initial_vars = infinity
                            /\ test_score initial_vars = 0%float
                  | Some c => best_validation_loss initial_vars
                              = validation_loss_of c
                              /\ test_score initial_vars = test_score_of c
                  end) by (split; reflexivity).
  revert Hinit. generalize (@None params) as file.
  induction Hsteps as [k v | k s h v' Hok Hbrk Hrest IH]; intros file Hinv;
    [exact Hinv |].
  cbn [map concat]. rewrite saved_model_app. apply IH.
  destruct Hok as (_ & _ & _ & Hs). rewrite Hs.
  now apply body_keeps_best_saved.
Qed.

(** X7. The best validation loss never goes up: a step either leaves
    it as it was, or it is a checkpoint whose validation loss is below it
    and becomes the new best. *)
Theorem best_validation_loss_only_improves fuel r s :
  training fuel = Some r ->
  In s (r_history r) ->
  best_validation_loss (st_after s) = best_validation_loss (st_before s)
  \/ (is_checkpoint (st_epoch s) (st_minibatch s) = true
      /\ best_validation_loss (st_after s)
         = validation_loss_of (classifier (st_after s))
      /\ (best_validation_loss (st_after s)
          <? best_validation_loss (st_before s))%float = true).
Proof.
  intros Hrun Hin.
  destruct (steps_from_In _ _ _ _ _ (training_steps _ _ Hrun) Hin)
    as [k (_ & _ & _ & Hs)].
  destruct (is_checkpoint (st_epoch s) (st_minibatch s)
            && (validation_loss_of (classifier (st_after s))
                <? best_validation_loss (st_before s))%float) eqn:Himp.
  - right. apply andb_true_iff in Himp. destruct Himp as [Hc Hlt].
    pose proof (body_improvement _ _ (st_before s) Hc) as H.
    cbv zeta in H. rewrite <- Hs in H.
    destruct (H Hlt) as (_ & _ & Hbest).
    split; [exact Hc |]. split; [exact Hbest |]. now rewrite Hbest.
  - left. apply andb_false_iff in Himp.
    pose proof (body_unimproved_best (st_epoch s) (st_minibatch s)
                  (st_before s)) as H.
    cbv zeta in H. rewrite <- Hs in H. now destruct (H Himp).
Qed.

(** X8. Patience does what it is for. When the checkpoint at global
    iteration [k] improves the best validation loss by more than the margin,
    patience is at least [2 * k] from then on; so if the run stops early at
    all, it has made more than [2 * k] gradient steps. *)
Theorem early_stop_waits_twice_as_long fuel r h1 s h2 :
  training fuel = Some r ->
  r_history r = h1 ++ s :: h2 ->
  is_checkpoint (st_epoch s) (st_minibatch s) = true ->
  let validation_loss := validation_loss_of (classifier (st_after s)) in
  let best := best_validation_loss (st_before s) in
  (validation_loss <? best)%float = true ->
  (validation_loss <? improvement_thresh * best)%float = true ->
  let k := Z.of_nat (length h1) in
  2 * k <= patience (st_after s)
  /\ 2 * k <= patience (r_vars r)
  /\ (done_looping (r_vars r) = true ->
      2 * k < Z.of_nat (length (r_history r))).
Proof.
  intros Hrun Hh Hc. cbv zeta. intros Hlt Hmargin.
  pose proof (training_steps _ _ Hrun) as Hsteps.
  pose proof (steps_from_nth _ _ _ _ Hsteps _ _ _ Hh) as (Hk & _ & _ & Hs).
  pose proof (body_improvement _ _ (st_before s) Hc) as H.
  cbv zeta in H. rewrite <- Hs in H.
  destruct (H Hlt) as (Hext & _ & _). specialize (Hext Hmargin).
  assert (Hfinal : patience (st_after s) <= patience (r_vars r)).
  { pose proof Hsteps as Hsteps'. rewrite Hh in Hsteps'.
    apply steps_from_split in Hsteps'. destruct Hsteps' as [vm [_ H2]].
    inversion H2 as [| ? ? ? ? _ _ Hrest]; subst.
    now apply steps_from_patience in Hrest. }
  cbn [Z.add] in Hk. split; [lia |]. split; [lia |].
  intros Hd.
  destruct (steps_from_done _ _ _ _ Hsteps eq_refl Hd) as (l & s' & Hl & Hb).
  destruct (steps_from_exit _ _ _ _ Hsteps
              ltac:(unfold Trainer.initial_vars, initial_patience; cbn; lia)
              _ _ _ Hl) as (Hk' & _ & Hbrk).
  destruct (Hbrk Hb) as (_ & _ & _ & Hp).
  rewrite Hl, length_app. cbn [length]. lia.
Qed.

(** X9. With at most 2500 batches per epoch the validation frequency
    is the number of batches, and the steps that validate are exactly the
    last batch of each epoch. *)
Theorem validation_at_the_end_of_each_epoch fuel r s :
  n_train_batches <= 2500 ->
  training fuel = Some r ->
  In s (r_history r) ->
  validation_freq = n_train_batches
  /\ (is_checkpoint (st_epoch s) (st_minibatch s) = true
      <-> st_minibatch s = n_train_batches - 1).
Proof.
  intros Hn Hrun Hin.
  destruct (steps_from_In _ _ _ _ _ (training_steps _ _ Hrun) Hin)
    as [k (_ & Hm & _ & _)].
  assert (Hvf : validation_freq = n_train_batches).
  { unfold Trainer.validation_freq, initial_patience.
    change (5000 / 2) with 2500. lia. }
  split; [exact Hvf |].
  unfold Trainer.is_checkpoint. rewrite Hvf, Z.eqb_eq.
  unfold Trainer.iter_no.
  replace ((st_epoch s - 1) * n_train_batches + st_minibatch s + 1)
    with (st_minibatch s + 1 + (st_epoch s - 1) * n_train_batches) by lia.
  rewrite Z.mod_add by lia.
  destruct (Z.eq_dec (st_minibatch s) (n_train_batches - 1)) as [He | He].
  - rewrite He. replace (n_train_batches - 1 + 1) with n_train_batches by lia.
    rewrite Z.mod_same by lia. tauto.
  - rewrite Z.mod_small by lia. lia.
Qed.

End LoopFacts.

(** ** Batches *)

Section BatchFacts.

Import Py Trainer.

Lemma firstn_add {A : Type} (a b : nat) (l : list A) :
  firstn (a + b) l = firstn a l ++ firstn b (skipn a l).
Proof.
  revert l. induction a as [| a IH]; intros l; [reflexivity |].
  destruct l as [| x l]; cbn [Nat.add firstn skipn app].
  - now rewrite firstn_nil.
  - now rewrite IH.
Qed.

(** A slice with bounds [0 <= i <= j]. *)
Lemma slice_nonneg {A : Type} (l : list A) i j :
  0 <= i <= j ->
  slice l i j = firstn (Z.to_nat (j - i)) (skipn (Z.to_nat i) l).
Proof.
  intros Hij. unfold slice, slice_bound.
  destruct (Z.ltb_spec i 0) as [? | _]; [lia |].
  destruct (Z.ltb_spec j 0) as [? | _]; [lia |].
  set (n := Z.of_nat (length l)).
  destruct (Z.le_gt_cases i n) as [Hi | Hi].
  - rewrite (Z.min_l i n) by lia.
    destruct (Z.le_gt_cases j n) as [Hj | Hj].
    + now rewrite (Z.min_l j n) by lia.
    + rewrite (Z.min_r j n) by lia.
      rewrite !firstn_all2; auto; rewrite length_skipn; unfold n in *; lia.
  - rewrite (Z.min_r i n), (Z.min_r j n) by lia.
    rewrite Z.sub_diag. cbn [Z.to_nat firstn].
    rewrite skipn_all2 by (unfold n in *; lia).
    now rewrite firstn_nil.
Qed.

Lemma slice_batch {A : Type} (l : list A) bs i :
  0 < bs -> 0 <= i ->
  slice l (i * bs) ((i + 1) * bs)
  = firstn (Z.to_nat bs) (skipn (Z.to_nat (i * bs)) l).
Proof.
  intros Hbs Hi. rewrite slice_nonneg by nia. f_equal. lia.
Qed.

(** Row [j] of batch [i] is row [i * bs + j] of the split. *)
Lemma nth_error_slice_batch {A : Type} (l : list A) bs i j x :
  0 < bs -> 0 <= i ->
  nth_error (slice l (i * bs) ((i + 1) * bs)) j = Some x ->
  Z.of_nat j < bs /\ nth_error l (Z.to_nat (i * bs + Z.of_nat j)) = Some x.
Proof.
  intros Hbs Hi. rewrite slice_batch by assumption.
  rewrite nth_error_firstn.
  destruct (Nat.ltb_spec j (Z.to_nat bs)) as [Hj | Hj]; [| discriminate].
  rewrite nth_error_skipn. intros Hx. split; [lia |].
  replace (Z.to_nat (i * bs + Z.of_nat j)) with (Z.to_nat (i * bs) + j)%nat
    by nia.
  exact Hx.
Qed.

(** The first [n] batches, one after the other, are the first [n * bs]
    rows. *)
Lemma concat_batches {A : Type} (l : list A) bs (n : nat) :
  0 < bs ->
  concat (map (fun i => slice l (i * bs) ((i + 1) * bs))
            (range (Z.of_nat n)))
  = firstn (Z.to_nat (Z.of_nat n * bs)) l.
Proof.
  intros Hbs. unfold range. rewrite Nat2Z.id.
  induction n as [| n IH]; [reflexivity |].
  rewrite seq_S, !map_app, concat_app, IH. cbn [map concat Nat.add].
  rewrite app_nil_r, slice_batch by lia.
  replace (Z.to_nat (Z.of_nat (S n) * bs))
    with (Z.to_nat (Z.of_nat n * bs) + Z.to_nat bs)%nat by nia.
  now rewrite firstn_add.
Qed.

Variables row label params : Type.
Variable train_fn : params -> dataset row label -> float * params.
Variable errors_fn : params -> dataset row label -> float.
Variable np_mean : list float -> float.
Variables train_set validate_set test_set : dataset row label.
Variables n_epochs batch_size : Z.
Variable classifier0 : params.

#[local] Abbreviation n_batches := (Trainer.n_batches row label batch_size).
#[local] Abbreviation givens := (Trainer.givens row label batch_size).
#[local] Abbreviation shape0 := (Trainer.shape0 row label).
#[local] Abbreviation batch_below := (Trainer.batch_below row label batch_size).
#[local] Abbreviation train :=
  (Trainer.train row label params train_fn errors_fn np_mean train_set
     validate_set test_set n_epochs batch_size classifier0).
#[local] Abbreviation training :=
  (Trainer.training row label params train_fn errors_fn np_mean train_set
     validate_set test_set n_epochs batch_size classifier0).

Lemma batch_below_range (d : dataset row label) index :
  0 < batch_size ->
  In index (range (shape0 d / batch_size)) ->
  batch_below d (shape0 d / batch_size * batch_size) index.
Proof.
  intros Hbs Hin j x Hx. apply In_range in Hin.
  unfold Trainer.givens in Hx. cbn [fst] in Hx.
  apply nth_error_slice_batch in Hx; [| lia | lia].
  destruct Hx as [Hj Hx]. split; [nia | exact Hx].
Qed.


(** *** Batch sizes and batch counts *)

Lemma length_slice_batch {A : Type} (l : list A) bs i :
  0 < bs -> 0 <= i ->
  Z.of_nat (length (slice l (i * bs) ((i + 1) * bs)))
  = Z.max 0 (Z.min bs (Z.of_nat (length l) - i * bs)).
Proof.
  intros Hbs Hi. rewrite slice_batch by assumption.
  rewrite length_firstn, length_skipn. nia.
Qed.

(** X10. Every batch a split offers under an index of
    [range(n_batches)] is full: [batch_size] rows and, when the split has as
    many labels as rows, [batch_size] labels. The batch after the last one
    would be the short one: it has the [size mod batch_size] left-over
    rows. *)
Theorem batches_are_full (d : dataset row label) :
  0 < batch_size ->
  (forall i, In i (range (shape0 d / batch_size)) ->
     Z.of_nat (length (fst (givens d i))) = batch_size
     /\ (length (snd d) = length (fst d) ->
         Z.of_nat (length (snd (givens d i))) = batch_size))
  /\ Z.of_nat (length (fst (givens d (shape0 d / batch_size))))
     = shape0 d mod batch_size.
Proof.
  intros Hbs.
  pose proof (Z.div_mod (shape0 d) batch_size ltac:(lia)) as Hdm.
  pose proof (Z.mod_pos_bound (shape0 d) batch_size Hbs) as Hmod.
  assert (Hsz : 0 <= shape0 d) by (unfold Trainer.shape0; lia).
  pose proof (Z.div_pos (shape0 d) batch_size Hsz Hbs) as Hq.
  unfold Trainer.givens. cbn [fst snd]. split.
  - intros i Hin. apply In_range in Hin. split.
    + rewrite length_slice_batch by lia. unfold Trainer.shape0 in *. nia.
    + intros Hy. rewrite length_slice_batch by lia. rewrite Hy.
      unfold Trainer.shape0 in *. nia.
  - rewrite length_slice_batch by lia. unfold Trainer.shape0 in *. nia.
Qed.

(** X11. A batch size larger than the training split leaves no batch
    to train on: the loop counts through its epochs without a single step,
    prints and saves nothing, and returns the initial variables. *)
Theorem oversized_batch_trains_nothing :
  shape0 train_set < batch_size ->
  exists r,
    train (Z.to_nat n_epochs) = Return (Some r)
    /\ r_history r = []
    /\ log params r = []
    /\ saved_model params None (log params r) = None
    /\ r_vars r = initial_vars params classifier0
    /\ r_epoch r = Z.max 0 n_epochs.
Proof.
  intros Hbig.
  assert (Hsz : 0 <= shape0 train_set) by (unfold Trainer.shape0; lia).
  unfold Trainer.train, Trainer.n_batches, floordiv.
  destruct (Z.eqb_spec batch_size 0) as [H0 | H0]; [lia |].
  rewrite (Z.div_small (shape0 train_set) batch_size) by lia.
  unfold Trainer.training.
  destruct (while_loop_terminates row label params train_fn errors_fn np_mean
              train_set validate_set test_set n_epochs batch_size 0
              (shape0 validate_set / batch_size)
              (shape0 test_set / batch_size) (Z.to_nat n_epochs) 0
              (initial_vars params classifier0) ltac:(lia)) as [r Hr].
  exists r. rewrite Hr. split; [reflexivity |].
  destruct (while_loop_no_batches _ _ _ _ _ _ _ _ _ _ _ 0 _ _ _ _ _ _
              ltac:(lia) Hr) as [Hh Hv].
  assert (Hlog : log params r = []) by (unfold log; now rewrite Hh).
  split; [exact Hh |]. split; [exact Hlog |].
  split; [now rewrite Hlog |]. split; [exact Hv |].
  assert (Hd : done_looping (r_vars r) = false) by now rewrite Hv.
  now destruct (while_loop_full _ _ _ _ _ _ _ _ _ _ _ _ _ _ _ 0 _ _
                  ltac:(lia) Hr Hd).
Qed.

End BatchFacts.

(** ** The loop on the small data set *)

Section ScenarioFacts.

Import Py Trainer.

Lemma run3_eq : Scenario.training 3 3 = Some Scenario.run3.
Proof.
  unfold Scenario.run3. apply training_returns. lia.
Qed.

Lemma decay_run_eq :
  Scenario.decay_training 2600 (Z.to_nat 2600) = Some Scenario.decay_run.
Proof.
  unfold Scenario.decay_run. apply training_returns. lia.
Qed.

Lemma patient_run_eq :
  Scenario.patient_training 6000 (Z.to_nat 6000) = Some Scenario.patient_run.
Proof.
  unfold Scenario.patient_run. apply training_returns. lia.
Qed.

Lemma decay_step_In k :
  (k <? length (r_history Scenario.decay_run))%nat = true ->
  In (Scenario.decay_step k) (r_history Scenario.decay_run).
Proof.
  intros Hk. unfold Scenario.decay_step. apply nth_In.
  now apply Nat.ltb_lt.
Qed.

Lemma checkpoint_of_epoch_In e :
  (3 * e - 1 <? length Scenario.history3)%nat = true ->
  In (Scenario.checkpoint_of_epoch e) (r_history Scenario.run3).
Proof.
  intros He. unfold Scenario.checkpoint_of_epoch.
  change (r_history Scenario.run3) with Scenario.history3.
  apply nth_In. now apply Nat.ltb_lt.
Qed.

(** The step with index 2599 of the shrinking-error run: the loss improves
    by more than the margin, and patience becomes the larger of what it was
    and twice the iteration index. *)
Lemma patience_extended_iff_significant_witness :
  let s := Scenario.decay_step 2599 in
  patience (st_after s)
  = Z.max (patience (st_before s))
      (Trainer.iter_no 1 (st_epoch s) (st_minibatch s) * 2).
Proof.
  cbv zeta.
  pose proof (patience_extended_iff_significant _ _ _ _ _ _ _ _ _ _ _ _ _ _ _
                _ _ _ decay_run_eq
                (decay_step_In 2599 ltac:(vm_compute; reflexivity))) as H.
  specialize (H ltac:(vm_compute; reflexivity) ltac:(vm_compute; reflexivity)).
  destruct H as [H _]. apply H. vm_compute. reflexivity.
Defined.

Example patience_extended_values :
  let s := Scenario.decay_step 2599 in
  patience (st_before s) = 5196 /\ patience (st_after s) = 5198.
Proof. vm_compute. split; reflexivity. Qed.

(** The run that never improves after its first checkpoint makes no more
    gradient steps than epochs times batches. *)
Lemma training_terminates_witness :
  (n_train_calls nat (log nat Scenario.patient_run)
   <= Z.to_nat 6000 * Z.to_nat 1)%nat.
Proof.
  exact (proj1 (proj2 (proj2
           (proj2 (training_terminates _ _ _ _ _ _ _ _ _ _ _ _ _ _ _)
              _ _ patient_run_eq)))).
Defined.

(** That run stops early: with patience still 5000 it breaks at the step
    with global iteration index 5000, the 5001st gradient step, in epoch 5001
    of the 6000 allowed. *)
Example early_exit_at_patience :
  r_epoch Scenario.patient_run = 5001
  /\ done_looping (r_vars Scenario.patient_run) = true
  /\ patience (r_vars Scenario.patient_run) = 5000
  /\ n_train_calls nat (log nat Scenario.patient_run) = Z.to_nat 5001
  /\ map (fun s => (Trainer.iter_no 1 (st_epoch s) (st_minibatch s),
                    st_break s))
       (skipn (Z.to_nat 4999) (r_history Scenario.patient_run))
     = [(4999, false); (5000, true)].
Proof. vm_compute. repeat split; reflexivity. Qed.

(** Step 2599 of the shrinking-error run finds patience above 5000 and
    does not lower it. *)
Lemma patience_never_decreases_witness :
  5000 <= patience (st_before (Scenario.decay_step 2599))
       <= patience (st_after (Scenario.decay_step 2599)).
Proof.
  exact (proj1 (proj2
           (patience_never_decreases _ _ _ _ _ _ _ _ _ _ _ _ _ _ _ _ _
              decay_run_eq))
           _ (decay_step_In 2599 ltac:(vm_compute; reflexivity))).
Defined.

Example patience_grows :
  map (fun k => patience (st_after (Scenario.decay_step k)))
    [0; 2500; 2501; 2502; 2599]%nat
  = [5000; 5000; 5002; 5004; 5198].
Proof. vm_compute. reflexivity. Qed.

(** The last step of the first epoch of the three-epoch run: three batches
    per epoch, so the validation frequency is three, and the step with the
    global iteration index two validates. *)
Lemma validation_every_validation_freq_witness :
  let s := Scenario.checkpoint_of_epoch 1 in
  let validation_loss :=
    Scenario.np_mean
      (map (fun i =>
              Scenario.errors_fn (classifier (st_after s))
                (Trainer.givens Z Z 2 Scenario.validate_set i))
         (range 2)) in
  (exists rest,
     st_events s
     = EvTrain (st_minibatch s)
         :: map EvValidate (range 2)
         ++ EvPrintValidation (st_epoch s) (st_minibatch s + 1) 3
              (validation_loss * 100)%float
         :: rest
     /\ forall i, ~ In (EvValidate i) rest)
  /\ best_validation_loss (st_after s)
     = (if (validation_loss <? best_validation_loss (st_before s))%float
        then validation_loss
        else best_validation_loss (st_before s)).
Proof.
  cbv zeta.
  apply (proj1 (proj2 (proj2 (proj2
           (validation_every_validation_freq _ _ _ _ _ _ _ _ _ _ _ _ _ _ _
              _ _ _ run3_eq
              (checkpoint_of_epoch_In 1 ltac:(vm_compute; reflexivity))))))).
  exists 1. vm_compute. reflexivity.
Defined.

Example validation_at_epoch_ends :
  Trainer.validation_freq 3 = 3
  /\ map (fun s => (Trainer.iter_no 3 (st_epoch s) (st_minibatch s),
                    length (st_events s)))
       Scenario.history3
     = [(0, 1%nat); (1, 1%nat); (2, 8%nat); (3, 1%nat); (4, 1%nat);
        (5, 8%nat); (6, 1%nat); (7, 1%nat); (8, 8%nat)].
Proof. vm_compute. split; reflexivity. Qed.


(** Rows 0 to 5 are fed, row 6 never is. *)
Example seventh_row_is_dropped :
  Trainer.n_batches Z Z 2 Scenario.train_set = Return 3
  /\ map (fun i => fst (Trainer.givens Z Z 2 Scenario.train_set i)) (range 3)
     = [[0; 1]; [2; 3]; [4; 5]]
  /\ fst Scenario.train_set = [0; 1; 2; 3; 4; 5; 6].
Proof. vm_compute. repeat split; reflexivity. Qed.

(** C8, on the code. At the first checkpoint of the three-epoch run
    the validation loss improves on the initial infinity: the step tests on
    both test batches, writes the report and dumps the classifier. The mean
    test error is 0.25, that is 25 per cent; the figure in the report, under
    the words "test error of best model", is [test_score * 100] = 75. *)
Example test_report_shows_test_score :
  let s := Scenario.checkpoint_of_epoch 1 in
  let c := classifier (st_after s) in
  let mean_test_error :=
    Scenario.np_mean
      (map (Trainer.test_model Z Z nat Scenario.errors_fn Scenario.test_set 2 c)
         (range 2)) in
  st_events s
  = [EvTrain 2; EvValidate 0; EvValidate 1; EvPrintValidation 1 3 3 25;
     EvTest 0; EvTest 1; EvPrintTest 1 3 3 75; EvDump 3%nat]
  /\ (mean_test_error * 100)%float = 25%float
  /\ (test_score (st_after s) * 100)%float = 75%float.
Proof. vm_compute. repeat split; reflexivity. Qed.

End ScenarioFacts.

(** ** The model *)

Section ModelFacts.

Import T LogReg ModelSpec.

#[local] Open Scope R_scope.

(** *** Sums and entries *)

Lemma big_sum_S n f : big_sum (S n) f = f 0%nat + big_sum n (fun k => f (S k)).
Proof.
  unfold big_sum. cbn [seq map fold_right].
  now rewrite <- seq_shift, map_map.
Qed.

Lemma big_sum_ext n f g :
  (forall k, (k < n)%nat -> f k = g k) -> big_sum n f = big_sum n g.
Proof.
  revert f g. induction n as [| n IH]; intros f g H; [reflexivity |].
  rewrite !big_sum_S, (H 0%nat) by lia. f_equal.
  apply IH. intros k Hk. apply H. lia.
Qed.

Lemma sum_nth (l : vector) :
  sum l = big_sum (length l) (fun k => nth k l 0).
Proof.
  induction l as [| a l IH]; [reflexivity |].
  cbn [length]. rewrite big_sum_S. cbn [sum fold_right nth].
  now rewrite <- IH.
Qed.

Lemma length_map2 {A B C} (f : A -> B -> C) l1 l2 :
  length l1 = length l2 -> length (map2 f l1 l2) = length l1.
Proof.
  intros H. unfold map2. rewrite length_map, length_combine. lia.
Qed.

Lemma nth_map2 {A B C} (f : A -> B -> C) l1 l2 i da db dc :
  length l1 = length l2 -> (i < length l1)%nat ->
  nth i (map2 f l1 l2) dc = f (nth i l1 da) (nth i l2 db).
Proof.
  intros Hlen Hi. unfold map2.
  rewrite (nth_indep _ dc (f (fst (da, db)) (snd (da, db))))
    by (rewrite length_map, length_combine; lia).
  rewrite (map_nth (fun p => f (fst p) (snd p))).
  now rewrite combine_nth.
Qed.

Lemma nth_map_in {A B} (f : A -> B) l i da db :
  (i < length l)%nat -> nth i (map f l) db = f (nth i l da).
Proof.
  intros Hi. rewrite (nth_indep _ db (f da)) by now rewrite length_map.
  apply map_nth.
Qed.

Lemma nth_row_length (m : matrix) n i :
  Forall (fun r => length r = n) m -> (i < length m)%nat ->
  length (nth i m []) = n.
Proof.
  intros Hall Hi. rewrite Forall_forall in Hall. apply Hall. now apply nth_In.
Qed.

Lemma shape1_rows (m : matrix) n :
  Forall (fun r => length r = n) m -> (0 < length m)%nat -> shape1 m = n.
Proof.
  intros Hall Hlen. unfold shape1. destruct m as [| r m]; [cbn in Hlen; lia |].
  now inversion Hall.
Qed.

Lemma column_nth (m : matrix) j k :
  nth k (column j m) 0 = entry m k j.
Proof.
  unfold column, entry.
  destruct (Nat.lt_ge_cases k (length m)) as [Hk | Hk].
  - now rewrite (nth_map_in _ _ _ []).
  - rewrite (nth_overflow (map _ m)) by (rewrite length_map; lia).
    rewrite (nth_overflow m) by lia. now destruct j.
Qed.

(** *** The forward pass, entry by entry *)

Lemma dot_shape (x w : matrix) :
  length (dot x w) = length x
  /\ Forall (fun r => length r = shape1 w) (dot x w).
Proof.
  unfold dot. split; [apply length_map |].
  apply Forall_forall. intros r Hr. apply in_map_iff in Hr.
  destruct Hr as [xr [<- _]]. now rewrite length_map, length_seq.
Qed.

Lemma dot_entry (x w : matrix) n_in i j :
  Forall (fun r => length r = n_in) x -> length w = n_in ->
  (i < length x)%nat -> (j < shape1 w)%nat ->
  entry (dot x w) i j = big_sum n_in (fun k => entry x i k * entry w k j).
Proof.
  intros Hx Hw Hi Hj. unfold entry at 1, dot.
  rewrite (nth_map_in _ _ _ []) by assumption.
  rewrite (nth_map_in _ _ _ 0%nat) by now rewrite length_seq.
  rewrite seq_nth by assumption. cbn [Nat.add].
  pose proof (nth_row_length x n_in i Hx Hi) as Hrow.
  assert (Hcol : length (column j w) = n_in)
    by (unfold column; now rewrite length_map).
  rewrite sum_nth. rewrite length_map2 by congruence. rewrite Hrow.
  apply big_sum_ext. intros k Hk.
  rewrite (nth_map2 _ _ _ _ 0 0) by congruence.
  now rewrite column_nth.
Qed.

Lemma add_rows_shape (m : matrix) (bias : vector) n :
  Forall (fun r => length r = n) m -> length bias = n ->
  length (add_rows m bias) = length m
  /\ Forall (fun r => length r = n) (add_rows m bias).
Proof.
  intros Hm Hb. unfold add_rows. split; [apply length_map |].
  apply Forall_forall. intros r Hr. apply in_map_iff in Hr.
  destruct Hr as [r0 [<- Hin]]. rewrite Forall_forall in Hm.
  rewrite length_map2; rewrite (Hm _ Hin); congruence.
Qed.

Lemma add_rows_entry (m : matrix) (bias : vector) n i j :
  Forall (fun r => length r = n) m -> length bias = n ->
  (i < length m)%nat -> (j < n)%nat ->
  entry (add_rows m bias) i j = entry m i j + nth j bias 0.
Proof.
  intros Hm Hb Hi Hj. unfold entry, add_rows.
  rewrite (nth_map_in _ _ _ []) by assumption.
  pose proof (nth_row_length m n i Hm Hi) as Hrow.
  now rewrite (nth_map2 _ _ _ _ 0 0) by congruence.
Qed.

Lemma softmax_shape (m : matrix) n :
  Forall (fun r => length r = n) m ->
  length (softmax m) = length m
  /\ Forall (fun r => length r = n) (softmax m).
Proof.
  intros Hm. unfold softmax. split; [apply length_map |].
  apply Forall_forall. intros r Hr. apply in_map_iff in Hr.
  destruct Hr as [r0 [<- Hin]]. rewrite Forall_forall in Hm.
  unfold softmax_row. rewrite !length_map. auto.
Qed.

Lemma softmax_entry (m : matrix) n i j :
  Forall (fun r => length r = n) m ->
  (i < length m)%nat -> (j < n)%nat ->
  entry (softmax m) i j
  = exp (entry m i j) / big_sum n (fun j' => exp (entry m i j')).
Proof.
  intros Hm Hi Hj. unfold entry, softmax.
  rewrite (nth_map_in _ _ _ []) by assumption.
  pose proof (nth_row_length m n i Hm Hi) as Hrow.
  unfold softmax_row.
  rewrite (nth_map_in _ _ _ 0) by now rewrite length_map, Hrow.
  rewrite (nth_map_in _ _ _ 0) by now rewrite Hrow.
  f_equal. rewrite sum_nth, length_map, Hrow.
  apply big_sum_ext. intros k Hk.
  now rewrite (nth_map_in _ _ _ 0) by now rewrite Hrow.
Qed.

Lemma p_y_given_x_shape self x y batch n_in n_out :
  well_shaped self x y batch n_in n_out ->
  length (p_y_given_x self x) = batch
  /\ Forall (fun r => length r = n_out) (p_y_given_x self x).
Proof.
  intros [Hin Hout Hxr Hxc HWr HWc Hb Hy Hl]. unfold p_y_given_x.
  assert (Hs1 : shape1 (W self) = n_out)
    by (apply shape1_rows; [assumption | lia]).
  destruct (dot_shape x (W self)) as [Hd1 Hd2]. rewrite Hs1 in Hd2.
  destruct (add_rows_shape _ (b self) n_out Hd2 Hb) as [Ha1 Ha2].
  destruct (softmax_shape _ n_out Ha2) as [Hp1 Hp2].
  split; [congruence | assumption].
Qed.

Lemma p_y_given_x_entry self x y batch n_in n_out i j :
  well_shaped self x y batch n_in n_out ->
  (i < batch)%nat -> (j < n_out)%nat ->
  entry (p_y_given_x self x) i j = prob x (W self) (b self) n_in n_out i j.
Proof.
  intros [Hin Hout Hxr Hxc HWr HWc Hb Hy Hl] Hi Hj. unfold p_y_given_x, prob.
  assert (Hs1 : shape1 (W self) = n_out)
    by (apply shape1_rows; [assumption | lia]).
  destruct (dot_shape x (W self)) as [Hd1 Hd2]. rewrite Hs1 in Hd2.
  destruct (add_rows_shape _ (b self) n_out Hd2 Hb) as [Ha1 Ha2].
  assert (Hlogit : forall j', (j' < n_out)%nat ->
            entry (add_rows (dot x (W self)) (b self)) i j'
            = logit x (W self) (b self) n_in i j').
  { intros j' Hj'. unfold logit.
    rewrite (add_rows_entry _ _ n_out) by (auto; lia).
    now rewrite (dot_entry _ _ n_in) by (auto; lia). }
  rewrite (softmax_entry _ n_out) by (auto; lia).
  rewrite Hlogit by assumption. f_equal.
  apply big_sum_ext. intros j' Hj'. now rewrite Hlogit.
Qed.

(** *** Arg-max *)

Lemma is_argmax_snoc_keep (pre : vector) bi x :
  is_argmax pre bi -> ~ nth bi pre 0 < x -> is_argmax (pre ++ [x]) bi.
Proof.
  intros (Hlt & Hmax & Hfirst) Hx. unfold is_argmax.
  rewrite length_app. cbn [length].
  rewrite (app_nth1 pre [x] 0 Hlt). split; [lia |]. split.
  - intros j Hj. destruct (Nat.lt_ge_cases j (length pre)) as [Hj' | Hj'].
    + rewrite app_nth1 by assumption. auto.
    + replace j with (length pre) by lia. rewrite nth_middle. lra.
  - intros j Hj. rewrite app_nth1 by lia. auto.
Qed.

Lemma is_argmax_snoc_new (pre : vector) bi x :
  is_argmax pre bi -> nth bi pre 0 < x ->
  is_argmax (pre ++ [x]) (length pre).
Proof.
  intros (Hlt & Hmax & Hfirst) Hx. unfold is_argmax.
  rewrite length_app. cbn [length]. rewrite nth_middle.
  split; [lia |]. split.
  - intros j Hj. destruct (Nat.lt_ge_cases j (length pre)) as [Hj' | Hj'].
    + rewrite app_nth1 by assumption. specialize (Hmax j Hj'). lra.
    + replace j with (length pre) by lia. rewrite nth_middle. lra.
  - intros j Hj. rewrite app_nth1 by assumption. specialize (Hmax j Hj). lra.
Qed.

Lemma argmax_from_spec (t : vector) : forall (pre : vector) bi,
  is_argmax pre bi ->
  is_argmax (pre ++ t) (argmax_from (nth bi pre 0) bi (length pre) t).
Proof.
  induction t as [| x t IH]; intros pre bi Hpre.
  - now rewrite app_nil_r.
  - cbn [argmax_from].
    replace (pre ++ x :: t) with ((pre ++ [x]) ++ t)
      by now rewrite <- app_assoc.
    replace (S (length pre)) with (length (pre ++ [x]))
      by (rewrite length_app; cbn; lia).
    destruct (Rlt_dec (nth bi pre 0) x) as [Hx | Hx].
    + pose proof (is_argmax_snoc_new pre bi x Hpre Hx) as Hnew.
      specialize (IH _ _ Hnew). now rewrite nth_middle in IH.
    + pose proof (is_argmax_snoc_keep pre bi x Hpre Hx) as Hkeep.
      specialize (IH _ _ Hkeep).
      destruct Hpre as (Hlt & _).
      now rewrite (app_nth1 pre [x] 0 Hlt) in IH.
Qed.

Lemma argmax_row_spec (v : vector) :
  v <> [] -> is_argmax v (argmax_row v).
Proof.
  destruct v as [| x t]; [congruence |]. intros _.
  apply (argmax_from_spec t [x] 0%nat).
  unfold is_argmax. cbn [length]. split; [lia |]. split.
  - intros j Hj. replace j with 0%nat by lia. cbn. lra.
  - intros j Hj. lia.
Qed.

(** *** Loss and error rate *)

Lemma big_sum_opp n f : big_sum n (fun i => - f i) = - big_sum n f.
Proof.
  revert f. induction n as [| n IH]; intros f.
  - unfold big_sum. cbn. lra.
  - rewrite !big_sum_S, IH. lra.
Qed.

Lemma sum_indicator {A} (P : A -> bool) (l : list A) :
  sum (map (fun i => if P i then 0 else 1) l)
  = INR (length (filter (fun i => negb (P i)) l)).
Proof.
  induction l as [| a l IH]; [reflexivity |].
  cbn [map sum fold_right filter]. fold (sum (map (fun i => if P i then 0 else 1) l)).
  rewrite IH. destruct (P a); cbn [negb length]; [lra |].
  rewrite S_INR. lra.
Qed.

Lemma map2_seq {A B C} (f : A -> B -> C) l1 l2 da db :
  length l1 = length l2 ->
  map2 f l1 l2
  = map (fun i => f (nth i l1 da) (nth i l2 db)) (seq 0 (length l1)).
Proof.
  intros Hlen.
  apply (nth_ext _ _ (f da db) (f da db)).
  - now rewrite length_map2, length_map, length_seq.
  - intros i Hi. rewrite length_map2 in Hi by assumption.
    rewrite (nth_map2 _ _ _ _ da db) by assumption.
    rewrite (nth_map_in _ _ _ 0%nat) by now rewrite length_seq.
    now rewrite seq_nth.
Qed.

Lemma item_log (p : matrix) n i k :
  Forall (fun r => length r = n) p -> (i < length p)%nat ->
  (0 <= k < Z.of_nat n)%Z ->
  item (log p) i k = ln (entry p i (Z.to_nat k)).
Proof.
  intros Hp Hi Hk. unfold item, log, entry.
  destruct (Z.ltb_spec k 0) as [? | _]; [lia |].
  rewrite (nth_map_in _ _ _ []) by assumption.
  pose proof (nth_row_length p n i Hp Hi) as Hrow.
  now rewrite (nth_map_in _ _ _ 0) by (rewrite Hrow; lia).
Qed.

Lemma y_pred_shape self x y batch n_in n_out :
  well_shaped self x y batch n_in n_out -> length (y_pred self x) = batch.
Proof.
  intros Hws. unfold y_pred, argmax. rewrite length_map.
  now destruct (p_y_given_x_shape _ _ _ _ _ _ Hws).
Qed.

Lemma negative_log_likelihood_loss self x y batch n_in n_out :
  well_shaped self x y batch n_in n_out ->
  negative_log_likelihood self x y = loss (p_y_given_x self x) y batch.
Proof.
  intros Hws. destruct (p_y_given_x_shape _ _ _ _ _ _ Hws) as [Hp1 Hp2].
  destruct Hws as [Hin Hout Hxr Hxc HWr HWc Hb Hy Hl].
  unfold negative_log_likelihood, loss, mean, items, arange.
  assert (Hlen : length (seq 0 (length y)) = length y) by apply length_seq.
  rewrite sum_nth, length_map2, Hlen, Hy by assumption.
  rewrite <- Rdiv_opp_l, <- big_sum_opp. f_equal.
  apply big_sum_ext. intros i Hi. f_equal.
  rewrite (nth_map2 _ _ _ _ 0%nat 0%Z) by (rewrite ?length_seq; lia).
  rewrite seq_nth by lia. cbn [Nat.add].
  apply (item_log _ n_out); [assumption | lia |].
  rewrite Forall_forall in Hl. apply Hl. apply nth_In. lia.
Qed.

Lemma errors_error_rate self x y batch n_in n_out :
  well_shaped self x y batch n_in n_out ->
  errors self x y = error_rate (y_pred self x) y batch.
Proof.
  intros Hws. pose proof (y_pred_shape _ _ _ _ _ _ Hws) as Hpred.
  destruct Hws as [Hin Hout Hxr Hxc HWr HWc Hb Hy Hl].
  unfold errors, error_rate, mean, neq.
  assert (Hlen : length (map Z.of_nat (y_pred self x)) = length y)
    by (rewrite length_map; congruence).
  rewrite length_map2 by assumption.
  rewrite (map2_seq _ _ _ 0%Z 0%Z) by assumption.
  rewrite length_map, Hpred. f_equal.
  rewrite (sum_indicator
             (fun i => (nth i (map Z.of_nat (y_pred self x)) 0 =? nth i y 0)%Z)).
  do 2 f_equal. apply filter_ext. intros i.
  rewrite <- (map_nth Z.of_nat). reflexivity.
Qed.


(** *** The model before training *)

Lemma map2_repeat {A B C} (f : A -> B -> C) a b' n :
  map2 f (repeat a n) (repeat b' n) = repeat (f a b') n.
Proof.
  unfold map2. induction n as [| n IH]; [reflexivity |].
  cbn [repeat combine map fst snd]. now rewrite IH.
Qed.

Lemma map_const_repeat {A B} (c : B) (l : list A) :
  map (fun _ => c) l = repeat c (length l).
Proof. induction l as [| a l IH]; cbn; [reflexivity | now rewrite IH]. Qed.

Lemma sum_repeat c n : sum (repeat c n) = INR n * c.
Proof.
  induction n as [| n IH]; [cbn; lra |].
  cbn [repeat sum fold_right]. fold (sum (repeat c n)).
  rewrite IH, S_INR. lra.
Qed.

Lemma sum_mult_zeros (xr : vector) : forall n,
  sum (map2 Rmult xr (repeat 0 n)) = 0.
Proof.
  unfold map2. induction xr as [| a xr IH]; intros n; [reflexivity |].
  destruct n as [| n]; [reflexivity |].
  cbn [repeat combine map sum fold_right fst snd].
  fold (sum (map (fun p => fst p * snd p) (combine xr (repeat 0 n)))).
  rewrite IH. lra.
Qed.

Lemma column_zeros j n_in n_out :
  column j (repeat (repeat 0 n_out) n_in) = repeat 0 n_in.
Proof.
  unfold column. rewrite map_repeat. f_equal. apply nth_repeat.
Qed.

Lemma dot_zeros (x : matrix) n_in n_out :
  (0 < n_in)%nat ->
  dot x (repeat (repeat 0 n_out) n_in) = map (fun _ => repeat 0 n_out) x.
Proof.
  intros Hin. unfold dot. apply map_ext. intros xr.
  assert (Hs : shape1 (repeat (repeat 0 n_out) n_in) = n_out).
  { destruct n_in as [| n_in]; [lia |]. unfold shape1. cbn [repeat hd].
    apply repeat_length. }
  rewrite Hs.
  rewrite (map_ext _ (fun _ => 0)).
  - now rewrite map_const_repeat, length_seq.
  - intros j. rewrite column_zeros. apply sum_mult_zeros.
Qed.

Lemma softmax_row_zeros n :
  softmax_row (repeat 0 n) = repeat (1 / INR n) n.
Proof.
  unfold softmax_row. rewrite map_repeat, exp_0, sum_repeat, map_repeat.
  f_equal. f_equal. lra.
Qed.

Lemma argmax_from_repeat c n : forall best_i i,
  argmax_from c best_i i (repeat c n) = best_i.
Proof.
  induction n as [| n IH]; intros best_i i; [reflexivity |].
  cbn [repeat argmax_from].
  destruct (Rlt_dec c c) as [Hlt | _]; [| apply IH].
  exfalso. apply (Rlt_irrefl c Hlt).
Qed.

Lemma argmax_row_repeat c n : argmax_row (repeat c n) = 0%nat.
Proof.
  destruct n as [| n]; [reflexivity |]. cbn [repeat argmax_row].
  apply argmax_from_repeat.
Qed.

Lemma zero_init_uniform n_in n_out (x : matrix) :
  (0 < n_in)%nat ->
  p_y_given_x (init n_in n_out) x
  = map (fun _ => repeat (1 / INR n_out) n_out) x.
Proof.
  intros Hin. unfold p_y_given_x, init. cbn [W b].
  rewrite dot_zeros by assumption.
  unfold add_rows, softmax. rewrite !map_map. apply map_ext. intros _.
  rewrite map2_repeat, Rplus_0_l. apply softmax_row_zeros.
Qed.


(** *** Probabilities *)

Lemma sum_map_div (e : vector) s :
  sum (map (fun v => v / s) e) = sum e / s.
Proof.
  induction e as [| a e IH]; [cbn; unfold Rdiv; ring |].
  cbn [map sum fold_right]. fold (sum (map (fun v => v / s) e)).
  fold (sum e). rewrite IH. unfold Rdiv. ring.
Qed.

Lemma sum_pos_bound (l : vector) :
  Forall (fun v => 0 < v) l ->
  0 <= sum l /\ Forall (fun v => v <= sum l) l.
Proof.
  induction 1 as [| a l Ha Hl [IH1 IH2]]; [split; [cbn; lra | constructor] |].
  cbn [sum fold_right]. fold (sum l). split; [lra |].
  constructor; [lra |].
  rewrite Forall_forall in *. intros v Hv. specialize (IH2 v Hv). lra.
Qed.

Lemma exp_all_pos (z : vector) : Forall (fun v => 0 < v) (map exp z).
Proof.
  apply Forall_forall. intros v Hv. apply in_map_iff in Hv.
  destruct Hv as [t [<- _]]. apply exp_pos.
Qed.

Lemma sum_exp_pos (z : vector) : z <> [] -> 0 < sum (map exp z).
Proof.
  destruct z as [| a z]; [congruence |]. intros _.
  cbn [map sum fold_right]. fold (sum (map exp z)).
  pose proof (exp_pos a).
  destruct (sum_pos_bound _ (exp_all_pos z)) as [H0 _]. lra.
Qed.

Lemma softmax_row_distribution (z : vector) :
  Forall (fun p => 0 < p <= 1) (softmax_row z)
  /\ (z <> [] -> sum (softmax_row z) = 1).
Proof.
  unfold softmax_row. destruct z as [| a z].
  - split; [constructor | congruence].
  - set (e := map exp (a :: z)).
    assert (Hs : 0 < sum e) by (apply sum_exp_pos; discriminate).
    destruct (sum_pos_bound e (exp_all_pos (a :: z))) as [_ Hle].
    split.
    + apply Forall_forall. intros p Hp. apply in_map_iff in Hp.
      destruct Hp as [v [<- Hv]].
      rewrite Forall_forall in Hle. specialize (Hle v Hv).
      pose proof (exp_all_pos (a :: z)) as Hpos.
      rewrite Forall_forall in Hpos. specialize (Hpos v Hv).
      split.
      * apply Rdiv_lt_0_compat; assumption.
      * apply (Rmult_le_reg_r (sum e)); [assumption |].
        unfold Rdiv. rewrite Rmult_assoc, Rinv_l by lra. lra.
    + intros _. rewrite sum_map_div. unfold Rdiv. apply Rinv_r. lra.
Qed.


(** *** Predictions *)

Lemma argmax_from_map (f : R -> R) (v : vector) :
  (forall a c, a < c <-> f a < f c) ->
  forall best best_i i,
    argmax_from (f best) best_i i (map f v) = argmax_from best best_i i v.
Proof.
  intros Hf. induction v as [| t v IH]; intros best best_i i; [reflexivity |].
  cbn [map argmax_from].
  destruct (Rlt_dec (f best) (f t)) as [H1 | H1];
    destruct (Rlt_dec best t) as [H2 | H2]; auto.
  - exfalso. apply H2. exact (proj2 (Hf best t) H1).
  - exfalso. apply H1. exact (proj1 (Hf best t) H2).
Qed.

Lemma argmax_row_softmax (z : vector) :
  argmax_row (softmax_row z) = argmax_row z.
Proof.
  destruct z as [| a z]; [reflexivity |].
  unfold softmax_row. rewrite map_map.
  set (s := sum (map exp (a :: z))).
  assert (Hs : 0 < s) by (apply sum_exp_pos; discriminate).
  cbn [map argmax_row].
  apply (argmax_from_map (fun t => exp t / s)).
  intros t u. split; intros H.
  - unfold Rdiv. apply Rmult_lt_compat_r.
    + now apply Rinv_0_lt_compat.
    + now apply exp_increasing.
  - apply exp_lt_inv. unfold Rdiv in H.
    apply (Rmult_lt_reg_r (/ s)); [now apply Rinv_0_lt_compat | exact H].
Qed.


Lemma y_pred_rows self (x : matrix) :
  y_pred self x
  = map (fun xr =>
           argmax_row
             (softmax_row
                (map2 Rplus
                   (map (fun j => sum (map2 Rmult xr (column j (W self))))
                      (seq 0 (shape1 (W self))))
                   (b self))))
      x.
Proof.
  unfold y_pred, p_y_given_x, argmax, softmax, add_rows, dot.
  now rewrite !map_map.
Qed.

Lemma slice_map {A B} (f : A -> B) (l : list A) i j :
  Py.slice (map f l) i j = map f (Py.slice l i j).
Proof.
  unfold Py.slice. rewrite length_map.
  now rewrite <- firstn_map, <- skipn_map.
Qed.



(** *** Bounds on loss and error rate *)

Lemma Rinv_INR_nonneg n : 0 <= / INR n.
Proof.
  destruct n as [| n]; [cbn; rewrite Rinv_0; lra |].
  left. apply Rinv_0_lt_compat. apply lt_0_INR. lia.
Qed.

Lemma big_sum_nonneg n f :
  (forall i, (i < n)%nat -> 0 <= f i) -> 0 <= big_sum n f.
Proof.
  revert f. induction n as [| n IH]; intros f Hf; [unfold big_sum; cbn; lra |].
  rewrite big_sum_S.
  pose proof (Hf 0%nat ltac:(lia)).
  pose proof (IH (fun k => f (S k)) ltac:(intros; apply Hf; lia)). lra.
Qed.

Lemma big_sum_const n c : big_sum n (fun _ => c) = INR n * c.
Proof.
  induction n as [| n IH]; [unfold big_sum; cbn; lra |].
  rewrite big_sum_S, IH, S_INR. lra.
Qed.

Lemma p_y_given_x_entry_bounds self x y batch n_in n_out i j :
  well_shaped self x y batch n_in n_out ->
  (i < batch)%nat -> (j < n_out)%nat ->
  0 < entry (p_y_given_x self x) i j <= 1.
Proof.
  intros Hws Hi Hj. destruct (p_y_given_x_shape _ _ _ _ _ _ Hws) as [Hp1 Hp2].
  pose proof (nth_row_length _ n_out i Hp2 ltac:(lia)) as Hrow.
  assert (Hin : In (nth i (p_y_given_x self x) []) (p_y_given_x self x))
    by (apply nth_In; lia).
  unfold p_y_given_x in Hin at 2. unfold softmax in Hin.
  apply in_map_iff in Hin.
  destruct Hin as [z [Hz _]].
  destruct (softmax_row_distribution z) as [Hb _].
  rewrite Hz in Hb. rewrite Forall_forall in Hb. apply Hb.
  unfold entry. apply nth_In. lia.
Qed.



(** *** The untrained model on labelled data *)

Lemma zero_init_y_pred n_in n_out (x : matrix) :
  (0 < n_in)%nat -> y_pred (init n_in n_out) x = map (fun _ => 0%nat) x.
Proof.
  intros Hin. unfold y_pred, argmax.
  rewrite zero_init_uniform, map_map by assumption.
  apply map_ext. intros _. apply argmax_row_repeat.
Qed.



End ModelFacts.

Section ModelScenarioFacts.

Import T LogReg ModelSpec.

#[local] Open Scope R_scope.

Lemma model_scenario_well_shaped :
  well_shaped ModelScenario.classifier ModelScenario.x ModelScenario.y 1 2 2.
Proof.
  constructor; cbn; try lia; try reflexivity; repeat constructor; lia.
Qed.


Example model_scenario_prediction :
  y_pred ModelScenario.classifier ModelScenario.x = [1%nat]
  /\ errors ModelScenario.classifier ModelScenario.x ModelScenario.y = 0.
Proof.
  assert (Hp : y_pred ModelScenario.classifier ModelScenario.x = [1%nat]).
  { unfold y_pred, p_y_given_x. cbn.
    replace (1 * 1 + (2 * 0 + 0) + 0) with 1 by lra.
    replace (1 * 0 + (2 * 1 + 0) + 0) with 2 by lra.
    destruct (Rlt_dec _ _) as [_ | Hn]; [reflexivity |].
    exfalso. apply Hn. unfold Rdiv.
    apply Rmult_lt_compat_r.
    - apply Rinv_0_lt_compat. pose proof (exp_pos 1). pose proof (exp_pos 2).
      lra.
    - apply exp_increasing. lra. }
  split; [exact Hp |].
  unfold errors. rewrite Hp. cbn. unfold mean. cbn. lra.
Qed.

End ModelScenarioFacts.

(** ** [load_data] *)

Section LoaderFacts.

Import Py Loader String.

#[local] Open Scope string_scope.

Variables lib_error data_x data_y row label : Type.
Variable os_path_split : string -> string * string.
Variable os_path_isfile : string -> bool.
Variable gzip_pickle_load :
  string ->
  outcome lib_error ((data_x * data_y) * (data_x * data_y) * (data_x * data_y)).
Variable shared_x : data_x -> list row.
Variable shared_y : data_y -> list label.

#[local] Abbreviation load_data :=
  (Loader.load_data lib_error data_x data_y row label os_path_split
     os_path_isfile gzip_pickle_load shared_x shared_y).
#[local] Abbreviation shared_dataset :=
  (Loader.shared_dataset data_x data_y row label shared_x shared_y).

(** C6, as the code has it. A path without a directory part that is
    not an existing file makes [load_data] raise its [ValueError] with
    nothing printed and nothing opened; that is the only case in which it
    raises a [ValueError]; in every other case, so also for a missing file
    below a directory, it prints its line and hands the path to
    [gzip.open], whose outcome decides. *)
Theorem load_data_value_error dataset :
  let data_dir := fst (os_path_split dataset) in
  (data_dir = EmptyString -> os_path_isfile dataset = false ->
   load_data dataset
   = ([], Raise (ValueError "Incorrect dataset path" ("dataset", dataset))))
  /\ ((exists msg arg, snd (load_data dataset) = Raise (ValueError msg arg))
      <-> data_dir = EmptyString /\ os_path_isfile dataset = false)
  /\ (data_dir <> EmptyString \/ os_path_isfile dataset = true ->
      load_data dataset
      = ([Print "... loading data"; Open dataset],
         match gzip_pickle_load dataset with
         | Raise e => Raise (LibraryError e)
         | Return (train_set, validate_set, test_set) =>
             Return (shared_dataset train_set, shared_dataset validate_set,
                     shared_dataset test_set)
         end)).
Proof.
  cbv zeta. unfold Loader.load_data.
  destruct (os_path_split dataset) as [data_dir data_file]. cbn [fst].
  assert (Hlib : forall msg arg,
            snd match gzip_pickle_load dataset with
                | Return (train_set, validate_set, test_set) =>
                    ([Print "... loading data"; Open dataset],
                     Return (shared_dataset train_set,
                             shared_dataset validate_set,
                             shared_dataset test_set))
                | Raise e =>
                    ([Print "... loading data"; Open dataset],
                     Raise (LibraryError e))
                end
            <> Raise (ValueError msg arg)).
  { intros msg arg.
    destruct (gzip_pickle_load dataset) as [[[? ?] ?] | ?]; discriminate. }
  assert (Hopen :
            match gzip_pickle_load dataset with
            | Return (train_set, validate_set, test_set) =>
                ([Print "... loading data"; Open dataset],
                 Return (shared_dataset train_set,
                         shared_dataset validate_set,
                         shared_dataset test_set))
            | Raise e =>
                ([Print "... loading data"; Open dataset],
                 Raise (LibraryError e))
            end
            = ([Print "... loading data"; Open dataset],
               match gzip_pickle_load dataset with
               | Raise e => Raise (LibraryError e)
               | Return (train_set, validate_set, test_set) =>
                   Return (shared_dataset train_set,
                           shared_dataset validate_set,
                           shared_dataset test_set)
               end)).
  { destruct (gzip_pickle_load dataset) as [[[? ?] ?] | ?]; reflexivity. }
  destruct (String.eqb_spec data_dir EmptyString) as [Hdir | Hdir];
    destruct (os_path_isfile dataset) eqn:Hfile; cbn [andb negb].
  - split; [intros; discriminate |]. split; [| intros _; exact Hopen].
    split; [| intros [_ ?]; discriminate].
    intros (msg & arg & H). now apply Hlib in H.
  - split; [reflexivity |]. split; [| intros [? | ?]; congruence].
    split; [auto | intros _; cbn [snd]; eauto].
  - split; [intros; congruence |]. split; [| intros _; exact Hopen].
    split; [| intros [? _]; congruence].
    intros (msg & arg & H). now apply Hlib in H.
  - split; [intros; congruence |]. split; [| intros _; exact Hopen].
    split; [| intros [? _]; congruence].
    intros (msg & arg & H). now apply Hlib in H.
Qed.

End LoaderFacts.

Section LoaderScenarioFacts.

Import Py Loader String.

#[local] Open Scope string_scope.

(** In a file system without files, the bare name [mnist.pkl.gz] is
    rejected before anything is printed or opened. *)
Lemma load_data_value_error_witness :
  load_data_no_file "mnist.pkl.gz"
  = ([], Raise (ValueError "Incorrect dataset path"
                  ("dataset", "mnist.pkl.gz"))).
Proof.
  apply (proj1 (load_data_value_error io_error (list Z) (list Z) Z Z
                  posix_split no_file open_no_file (fun x => x) (fun y => y)
                  "mnist.pkl.gz")).
  - reflexivity.
  - reflexivity.
Defined.

(** C6, as stated, fails. In the same file system the path
    [data/mnist.pkl.gz] names no file either, but it has a directory part:
    [load_data] prints its line, opens the path, and ends with the
    [FileNotFoundError] of [gzip.open], not with a [ValueError]. *)
Lemma missing_file_below_directory :
  no_file "data/mnist.pkl.gz" = false
  /\ posix_split "data/mnist.pkl.gz" = ("data", "mnist.pkl.gz")
  /\ load_data_no_file "data/mnist.pkl.gz"
     = ([Print "... loading data"; Open "data/mnist.pkl.gz"],
        Raise (LibraryError FileNotFoundError))
  /\ ~ (exists msg arg,
          load_data_no_file "data/mnist.pkl.gz"
          = ([], Raise (ValueError msg arg))).
Proof.
  repeat split; try reflexivity.
  intros (msg & arg & H). vm_compute in H. discriminate.
Qed.

End LoaderScenarioFacts.

(** ** [msgd_optimization_mnist] and [predict] *)

Section NotebookFacts.

Import Py.

Variables lib_error data_x data_y : Type.
Variable os_path_split : String.string -> String.string * String.string.
Variable os_path_isfile : String.string -> bool.
Variable gzip_pickle_load :
  String.string ->
  outcome lib_error ((data_x * data_y) * (data_x * data_y) * (data_x * data_y)).
Variable shared_x : data_x -> list (list R).
Variable shared_y : data_y -> list Z.
Variable train_fn :
  float -> LogReg.LogisticRegression -> Trainer.dataset (list R) Z ->
  float * LogReg.LogisticRegression.
Variable errors_fn :
  LogReg.LogisticRegression -> Trainer.dataset (list R) Z -> float.
Variable np_mean : list float -> float.

(** When [load_data] raises, nothing of the training is run: the function
    ends with that exception, having printed and opened what [load_data]
    did. *)
Lemma msgd_stops_on_load_error learning_rate n_epochs dataset batch_size
    fuel e :
  snd (Loader.load_data lib_error data_x data_y (list R) Z os_path_split
         os_path_isfile gzip_pickle_load shared_x shared_y dataset)
  = Raise e ->
  Notebook.msgd_optimization_mnist lib_error data_x data_y os_path_split
    os_path_isfile gzip_pickle_load shared_x shared_y train_fn errors_fn
    np_mean learning_rate n_epochs dataset batch_size fuel
  = (fst (Loader.load_data lib_error data_x data_y (list R) Z os_path_split
            os_path_isfile gzip_pickle_load shared_x shared_y dataset),
     Raise (Notebook.LoadError e)).
Proof.
  unfold Notebook.msgd_optimization_mnist.
  destruct (Loader.load_data _ _ _ _ _ _ _ _ _ _ _) as [evs [[[? ?] ?] | e']];
    cbn [fst snd]; intros H; [discriminate |].
  now injection H as ->.
Qed.


End NotebookFacts.

Section PredictorFacts.

Import Py T LogReg Predictor.

Variable contents : Type.
Variable pickle_dumps : LogisticRegression -> contents.
Variable pickle_loads : contents -> option LogisticRegression.

(** What [pickle] promises: loading a dump gives the object back. *)
Hypothesis pickle_roundtrip :
  forall c, pickle_loads (pickle_dumps c) = Some c.

#[local] Abbreviation dump := (Predictor.dump contents pickle_dumps).
#[local] Abbreviation persist := (Predictor.persist contents pickle_dumps).
#[local] Abbreviation predict := (Predictor.predict contents pickle_loads).

Lemma dump_lookup fs path c : dump fs path c path = Some (pickle_dumps c).
Proof. unfold Predictor.dump. now rewrite String.eqb_refl. Qed.

Lemma persist_lookup evs : forall fs path,
  persist fs path evs path
  = match Trainer.saved_model LogisticRegression None evs with
    | Some c => Some (pickle_dumps c)
    | None => fs path
    end.
Proof.
  assert (Hsome : forall evs c,
            Trainer.saved_model LogisticRegression (Some c) evs
            = match Trainer.saved_model LogisticRegression None evs with
              | Some c' => Some c'
              | None => Some c
              end).
  { intros l. induction l as [| e l IH]; intros c; [reflexivity |].
    destruct e as [? | ? | ? | ? ? ? ? | ? ? ? ? | c0];
      cbn [Trainer.saved_model]; auto.
    rewrite (IH c0).
    now destruct (Trainer.saved_model LogisticRegression None l). }
  induction evs as [| e evs IH]; intros fs path; [reflexivity |].
  destruct e; cbn [Predictor.persist Trainer.saved_model]; auto.
  rewrite IH, Hsome, dump_lookup.
  now destruct (Trainer.saved_model LogisticRegression None evs).
Qed.




End PredictorFacts.

Section PredictorScenarioFacts.

Import Py T LogReg Predictor String.

#[local] Open Scope string_scope.


End PredictorScenarioFacts.

(** ** The entry point that uses a trained model *)

Section EntrypointFacts.

Import Py Entrypoints String.

#[local] Open Scope string_scope.

Variables lib_error data_x data_y contents : Type.
Variable os_path_split : string -> string * string.
Variable os_path_isfile : string -> bool.
Variable gzip_pickle_load :
  string ->
  outcome lib_error ((data_x * data_y) * (data_x * data_y) * (data_x * data_y)).
Variable shared_x : data_x -> list (list R).
Variable shared_y : data_y -> list Z.
Variable pickle_loads : contents -> option LogReg.LogisticRegression.

#[local] Abbreviation load_data :=
  (Loader.load_data lib_error data_x data_y (list R) Z os_path_split
     os_path_isfile gzip_pickle_load shared_x shared_y).
#[local] Abbreviation pretrained_entrypoint :=
  (Entrypoints.pretrained_entrypoint lib_error data_x data_y contents
     os_path_split os_path_isfile gzip_pickle_load shared_x shared_y
     pickle_loads).

Lemma slice_first {A : Type} (l : list A) (n : nat) :
  slice l 0 (Z.of_nat n) = firstn n l.
Proof.
  rewrite slice_nonneg by lia. cbn [Z.to_nat skipn].
  f_equal. lia.
Qed.


End EntrypointFacts.

(** ** More runs on the small data sets *)

Section MoreScenarioFacts.

Import Py Trainer.

Lemma nth_split_at {A : Type} (l : list A) (n : nat) (d : A) :
  (n <? length l)%nat = true ->
  l = firstn n l ++ nth n l d :: skipn (S n) l.
Proof.
  intros Hn. apply Nat.ltb_lt in Hn. revert n Hn.
  induction l as [| a l IH]; intros n Hn; [cbn in Hn; lia |].
  destruct n as [| n]; [reflexivity |].
  cbn [firstn nth skipn app]. f_equal. apply IH. cbn in Hn. lia.
Qed.

Lemma decay_history_split k :
  (k <? length (r_history Scenario.decay_run))%nat = true ->
  r_history Scenario.decay_run
  = firstn k (r_history Scenario.decay_run)
      ++ Scenario.decay_step k :: skipn (S k) (r_history Scenario.decay_run).
Proof. intros Hk. unfold Scenario.decay_step. now apply nth_split_at. Qed.

Lemma history3_split e :
  (3 * e - 1 <? length Scenario.history3)%nat = true ->
  r_history Scenario.run3
  = firstn (3 * e - 1) Scenario.history3
      ++ Scenario.checkpoint_of_epoch e
      :: skipn (S (3 * e - 1)) Scenario.history3.
Proof.
  intros He. change (r_history Scenario.run3) with Scenario.history3.
  unfold Scenario.checkpoint_of_epoch. now apply nth_split_at.
Qed.

(** The run that exhausts the initial patience makes 5001 steps. *)
Lemma run_completes_or_stops_early_witness :
  Z.of_nat (length (r_history Scenario.patient_run))
  = patience (r_vars Scenario.patient_run) + 1.
Proof.
  destruct (run_completes_or_stops_early _ _ _ _ _ _ _ _ _ _ _ _ _ _ _ _ _
              patient_run_eq) as [(Hd & _) | (_ & _ & H & _)].
  - exfalso.
    assert (Ht : done_looping (r_vars Scenario.patient_run) = true)
      by (vm_compute; reflexivity).
    rewrite Ht in Hd. discriminate Hd.
  - exact H.
Defined.

(** Three epochs of three batches are far from 5000 steps. *)
Lemma short_run_is_never_stopped_witness :
  done_looping (r_vars Scenario.run3) = false
  /\ r_epoch Scenario.run3 = Z.max 0 3
  /\ length (r_history Scenario.run3) = (Z.to_nat 3 * Z.to_nat 3)%nat.
Proof.
  refine (short_run_is_never_stopped _ _ _ _ _ _ _ _ _ _ _ _ _ _ _ _ _
            _ run3_eq).
  lia.
Defined.

(** The last step of the second epoch: position 5, batch 2, epoch 2. *)
Lemma batches_in_cyclic_order_witness :
  st_minibatch (Scenario.checkpoint_of_epoch 2)
  = Z.of_nat (length (firstn (3 * 2 - 1) Scenario.history3)) mod 3
  /\ st_epoch (Scenario.checkpoint_of_epoch 2)
     = Z.of_nat (length (firstn (3 * 2 - 1) Scenario.history3)) / 3 + 1.
Proof.
  pose proof (batches_in_cyclic_order _ _ _ _ _ _ _ _ _ _ _ _ _ _ _ _ _ _ _ _
                run3_eq (history3_split 2 ltac:(vm_compute; reflexivity)))
    as (H1 & H2 & _).
  split; [exact H1 | exact H2].
Defined.

Lemma parameters_follow_train_model_witness :
  classifier (r_vars Scenario.run3)
  = fold_left
      (fun c s =>
         snd (Trainer.train_model Z Z nat Scenario.train_fn Scenario.train_set
                2 c (st_minibatch s)))
      (r_history Scenario.run3) O.
Proof.
  exact (proj2 (parameters_follow_train_model _ _ _ _ _ _ _ _ _ _ _ _ _ _ _
                  _ _ run3_eq)).
Defined.

(** After three epochs the file holds the classifier of the ninth step,
    with the loss and score the loop remembers. *)
Lemma saved_model_is_best_model_witness :
  match saved_model nat None (log nat Scenario.run3) with
  | None => best_validation_loss (r_vars Scenario.run3) = infinity
            /\ test_score (r_vars Scenario.run3) = 0%float
  | Some c =>
      best_validation_loss (r_vars Scenario.run3)
      = Trainer.validation_loss_of Z Z nat Scenario.errors_fn
          Scenario.np_mean Scenario.validate_set 2 2 c
      /\ test_score (r_vars Scenario.run3)
         = Trainer.test_score_of Z Z nat Scenario.errors_fn Scenario.np_mean
             Scenario.test_set 2 2 c
  end.
Proof.
  exact (saved_model_is_best_model _ _ _ _ _ _ _ _ _ _ _ _ _ _ _ _ _ run3_eq).
Defined.

Example saved_model_after_three_epochs :
  saved_model nat None (log nat Scenario.run3) = Some 9%nat
  /\ best_validation_loss (r_vars Scenario.run3) = 0.125%float
  /\ test_score (r_vars Scenario.run3) = 0.875%float.
Proof. vm_compute. repeat split; reflexivity. Qed.

Lemma best_validation_loss_only_improves_witness :
  let s := Scenario.checkpoint_of_epoch 2 in
  best_validation_loss (st_after s) = best_validation_loss (st_before s)
  \/ (Trainer.is_checkpoint 3 (st_epoch s) (st_minibatch s) = true
      /\ best_validation_loss (st_after s)
         = Trainer.validation_loss_of Z Z nat Scenario.errors_fn
             Scenario.np_mean Scenario.validate_set 2 2
             (classifier (st_after s))
      /\ (best_validation_loss (st_after s)
          <? best_validation_loss (st_before s))%float = true).
Proof.
  exact (best_validation_loss_only_improves _ _ _ _ _ _ _ _ _ _ _ _ _ _ _ _
           _ _ run3_eq
           (checkpoint_of_epoch_In 2 ltac:(vm_compute; reflexivity))).
Defined.

(** Step 2599 of the shrinking-error run improves by more than the margin:
    patience is at least 5198 from then on. *)
Lemma early_stop_waits_twice_as_long_witness :
  2 * Z.of_nat (length (firstn 2599 (r_history Scenario.decay_run)))
  <= patience (r_vars Scenario.decay_run).
Proof.
  pose proof (early_stop_waits_twice_as_long _ _ _ _ _ _ _ _ _ _ _ _ _ _ _
                _ _ _ _ _ decay_run_eq
                (decay_history_split 2599 ltac:(vm_compute; reflexivity))
                ltac:(vm_compute; reflexivity)
                ltac:(vm_compute; reflexivity)
                ltac:(vm_compute; reflexivity)) as (_ & H & _).
  exact H.
Defined.

Lemma validation_at_the_end_of_each_epoch_witness :
  Trainer.validation_freq 3 = 3
  /\ (Trainer.is_checkpoint 3 (st_epoch (Scenario.checkpoint_of_epoch 1))
        (st_minibatch (Scenario.checkpoint_of_epoch 1)) = true
      <-> st_minibatch (Scenario.checkpoint_of_epoch 1) = 3 - 1).
Proof.
  refine (validation_at_the_end_of_each_epoch _ _ _ _ _ _ _ _ _ _ _ _ _ _ _
            _ _ _ _ run3_eq
            (checkpoint_of_epoch_In 1 _)).
  - lia.
  - vm_compute. reflexivity.
Defined.

(** The checkpoint of the second epoch improves without reaching the
    margin, and still overwrites the saved model. *)
Lemma improvement_is_persisted_witness :
  saved_model nat (Some O) (st_events (Scenario.checkpoint_of_epoch 2))
  = Some (classifier (st_after (Scenario.checkpoint_of_epoch 2))).
Proof.
  refine (proj2 (proj2 (proj1 (improvement_is_persisted _ _ _ _ _ _ _ _ _ _
                                 _ _ _ _ _ _ _ _ run3_eq
                                 (checkpoint_of_epoch_In 2 _)) _))
            (Some O)).
  - vm_compute. reflexivity.
  - vm_compute. reflexivity.
Defined.

Lemma batches_are_full_witness :
  Z.of_nat (length (fst (Trainer.givens Z Z 2 Scenario.train_set
                           (Trainer.shape0 Z Z Scenario.train_set / 2))))
  = Trainer.shape0 Z Z Scenario.train_set mod 2.
Proof.
  exact (proj2 (batches_are_full Z Z 2 Scenario.train_set ltac:(lia))).
Defined.

(** Batches of eight rows on the split of seven. *)
Lemma oversized_batch_trains_nothing_witness :
  exists r,
    Trainer.train Z Z nat Scenario.train_fn Scenario.errors_fn
      Scenario.np_mean Scenario.train_set Scenario.validate_set
      Scenario.test_set 3 8 O (Z.to_nat 3)
    = Return (Some r)
    /\ r_history r = []
    /\ log nat r = []
    /\ saved_model nat None (log nat r) = None
    /\ r_vars r = initial_vars nat O
    /\ r_epoch r = Z.max 0 3.
Proof.
  apply oversized_batch_trains_nothing. vm_compute. reflexivity.
Defined.

End MoreScenarioFacts.

Section MoreModelScenarioFacts.

Import Py T LogReg ModelSpec.

#[local] Open Scope R_scope.




Lemma zero_scenario_well_shaped :
  well_shaped (init (28 * 28) 10) ZeroScenario.x ZeroScenario.y 2 (28 * 28)
    10.
Proof.
  constructor.
  - lia.
  - lia.
  - reflexivity.
  - unfold ZeroScenario.x.
    repeat (apply Forall_cons; [apply repeat_length |]). apply Forall_nil.
  - cbn [init W]. apply repeat_length.
  - cbn [init W]. apply Forall_forall. intros r Hr.
    apply repeat_spec in Hr. subst r. apply repeat_length.
  - cbn [init b]. apply repeat_length.
  - reflexivity.
  - unfold ZeroScenario.y. repeat (apply Forall_cons; [lia |]).
    apply Forall_nil.
Qed.



End MoreModelScenarioFacts.

Section MoreFileScenarioFacts.

Import Py String.

#[local] Open Scope string_scope.





End MoreFileScenarioFacts.
